(** * Webhook ingestion and query pipeline: a shallow embedding

  The development follows the layout of the application:
  - [Py]      : the Python [str] built-ins the handlers call;
  - [Re]      : the compiled pattern [E164_REGEX] under [re.match];
  - [Sqlite]  : text comparison, [LOWER] and [LIKE] as the queries use them;
  - [Storage] : app/storage.py over a table with primary key [message_id];
  - [Main]    : app/main.py, the payload model and the three handlers.

  A Python [str] is modelled by [string], every [ascii] standing for the
  code point of the same number (U+0000 .. U+00FF).  SQLite compares TEXT
  by the bytes of its UTF-8 encoding, whose order is the code-point order.
  The body of a delivery may also carry lone surrogates, which a [str]
  holds and a TEXT value cannot: the strings of a decoded body are
  modelled by [Py.text].  Characters from U+0100 on, the surrogates
  apart, are outside the model. *)

From Stdlib Require Import ZArith Ascii String.
From stdpp Require Import base option list sorting strings pretty gmap.

Local Open Scope string_scope.

(** ** Python [str] built-ins *)
Module Py.

Definition code (c : ascii) : nat := nat_of_ascii c.

Definition between (lo hi n : nat) : bool := (lo <=? n)%nat && (n <=? hi)%nat.

(** [str.isspace] on one character: TAB..CR, FS..US, SPACE, NEL, NBSP. *)
Definition isspace (c : ascii) : bool :=
  between 9 13 (code c) || between 28 32 (code c)
  || (code c =? 133)%nat || (code c =? 160)%nat.

(** ['0' <= c <= '9']. *)
Definition is_ascii_digit (c : ascii) : bool := between 48 57 (code c).

(** [str.isdigit] on one character: the decimal digits and the
    superscripts U+00B2, U+00B3, U+00B9 (Numeric_Type=Digit). *)
Definition isdigit (c : ascii) : bool :=
  is_ascii_digit c
  || (code c =? 178)%nat || (code c =? 179)%nat || (code c =? 185)%nat.

Fixpoint lstrip (s : string) : string :=
  match s with
  | String c s' => if isspace c then lstrip s' else s
  | EmptyString => EmptyString
  end.

Definition rstrip (s : string) : string := String.rev (lstrip (String.rev s)).

(** [s.strip()] *)
Definition strip (s : string) : string := rstrip (lstrip s).

(** [s.startswith(p)] *)
Definition startswith (p s : string) : bool := String.prefix p s.

(** [str.lower] on one character: A..Z and the Latin-1 capitals
    U+00C0..U+00DE (U+00D7, the multiplication sign, excepted). *)
Definition lower_char (c : ascii) : ascii :=
  if between 65 90 (code c)
     || (between 192 222 (code c) && negb (code c =? 215)%nat)
  then ascii_of_nat (code c + 32) else c.

Fixpoint lower (s : string) : string :=
  match s with
  | String c s' => String (lower_char c) (lower s')
  | EmptyString => EmptyString
  end.

(** Truth value of an [Optional[str]]: [None] and [""] are false. *)
Definition truthy (o : option string) : bool :=
  match o with
  | Some (String _ _) => true
  | _ => false
  end.

(** [s.replace(old, new, count)] for a non-empty [old]: the occurrences
    are taken from the left and do not overlap; [count = None] stands for
    the call without the third argument.  [skip] counts the characters of
    an occurrence still to be passed over. *)
Fixpoint replace_go (old new : string) (count : option nat) (skip : nat)
    (s : string) : string :=
  match s with
  | EmptyString => EmptyString
  | String c s' =>
      match skip with
      | S k => replace_go old new count k s'
      | O =>
          match count with
          | Some O => String c (replace_go old new count O s')
          | _ =>
              if String.prefix old s
              then new +:+ replace_go old new (Nat.pred <$> count)
                             (Nat.pred (String.length old)) s'
              else String c (replace_go old new count O s')
          end
      end
  end.

Definition replace (old new : string) (count : option nat) (s : string)
    : string :=
  replace_go old new count O s.

(** *** The strings of a decoded body

    [json.loads] decodes the escape of a lone surrogate (U+D800 ..
    U+DFFF) to that code point.  A [text] is a [str] that may hold such
    code points among the characters above; [Surrogate k] is the code
    point U+D800 + k. *)
Inductive char :=
| Chr (c : ascii)
| Surrogate (k : fin 2048).

Abbreviation text := (list char).

(** A [str] without surrogates, as a [text]. *)
Fixpoint wide (s : string) : text :=
  match s with
  | String c s' => Chr c :: wide s'
  | EmptyString => []
  end.

(** [s.encode("utf-8")], the bytes being given by the characters they
    encode; [None] stands for the [UnicodeEncodeError] that a lone
    surrogate raises. *)
Fixpoint encode (s : text) : option string :=
  match s with
  | Chr c :: s' => String c <$> encode s'
  | Surrogate _ :: _ => None
  | [] => Some EmptyString
  end.

Definition char_eqb (a b : char) : bool :=
  match a, b with
  | Chr x, Chr y => Ascii.eqb x y
  | Surrogate x, Surrogate y => (fin_to_nat x =? fin_to_nat y)%nat
  | _, _ => false
  end.

Fixpoint text_prefix (p s : text) : bool :=
  match p, s with
  | [], _ => true
  | a :: p', b :: s' => char_eqb a b && text_prefix p' s'
  | _ :: _, [] => false
  end.

(** [s.endswith(p)] *)
Definition endswith (p s : text) : bool := text_prefix (rev p) (rev s).

(** [s.replace(old, new)] for a one-character [old]. *)
Fixpoint replace_char (old : ascii) (new : text) (s : text) : text :=
  match s with
  | Chr c :: s' =>
      if Ascii.eqb c old then new ++ replace_char old new s'
      else Chr c :: replace_char old new s'
  | x :: s' => x :: replace_char old new s'
  | [] => []
  end.

End Py.

(** ** app/models.py *)
Module Models.

(** The backslash, as a one-character string. *)
Definition BACKSLASH : string := String "092"%char EmptyString.

Section paths.

(** [cwd_join p] is [str(Path.cwd() / p)]. *)
Context (cwd_join : string → string).

(** [_db_path_from_url]: [None] stands for the [ValueError]. *)
Definition _db_path_from_url (database_url : string) : option string :=
  if negb (Py.startswith "sqlite:////" database_url) then None
  else
    let path_part := Py.replace "sqlite:////" EmptyString (Some 1%nat) database_url in
    if Py.startswith "./" path_part
       || Py.startswith ("." +:+ BACKSLASH) path_part
    then Some (cwd_join (Py.replace "./" EmptyString None
                           (Py.replace BACKSLASH "/" None path_part)))
    else if negb (Py.startswith "/" path_part)
         then Some ("/" +:+ path_part)
         else Some path_part.

End paths.

End Models.

(** ** The pattern [^\+[1-9]\d{7,14}$] *)
Module Re.

(** The string made of one line feed. *)
Definition LF : string := String "010"%char EmptyString.

(** [$] without MULTILINE: at the end of the string, or just before a
    newline that is the last character. *)
Definition at_dollar (s : Py.text) : bool :=
  match s with
  | [] => true
  | [Py.Chr c] => Ascii.eqb c "010"%char
  | _ => false
  end.

(** [\d{lo,hi}$] with backtracking: some count in [lo..hi] of digits is
    followed by a position where [$] holds.  [\d] is a decimal digit:
    among the characters of a [text] these are 0..9 (a surrogate is none,
    and the digits of other scripts lie from U+0660 on). *)
Fixpoint digits_dollar (lo hi : nat) (s : Py.text) : bool :=
  (match lo with O => at_dollar s | S _ => false end)
  || match hi, s with
     | S hi', Py.Chr c :: s' =>
         Py.is_ascii_digit c && digits_dollar (pred lo) hi' s'
     | _, _ => false
     end.

(** [E164_REGEX.match(s)] is not [None]. *)
Definition E164_REGEX_match (s : Py.text) : bool :=
  match s with
  | Py.Chr p :: Py.Chr d :: rest =>
      Ascii.eqb p "+"%char
      && Py.between 49 57 (Py.code d) && digits_dollar 7 14 rest
  | _ => false
  end.

End Re.


(** ** SQLite text operations used by the queries *)
Module Sqlite.

(** [a <= b] on TEXT under the BINARY collation. *)
Definition text_leb (a b : string) : bool := String.leb a b.

(** [sqlite3Tolower]: only A..Z are folded. *)
Definition tolower (c : ascii) : ascii :=
  if Py.between 65 90 (Py.code c) then ascii_of_nat (Py.code c + 32) else c.

(** The SQL function [LOWER(x)]. *)
Fixpoint LOWER (s : string) : string :=
  match s with
  | String c s' => String (tolower c) (LOWER s')
  | EmptyString => EmptyString
  end.

(** [COALESCE(x, '')] *)
Definition COALESCE (x : option string) : string := default EmptyString x.

(** The characters before the first U+0000: what a routine reads that
    takes a text as a C string. *)
Fixpoint c_str (s : string) : string :=
  match s with
  | String c s' =>
      if Ascii.eqb c "000"%char then EmptyString else String c (c_str s')
  | EmptyString => EmptyString
  end.

(** [patternCompare] with the settings of LIKE: [%] stands for any run
    of characters, [_] for exactly one, every other pattern character for
    itself up to the case of A..Z; there is no escape character. *)
Fixpoint patternCompare (pat x : string) : bool :=
  match pat with
  | EmptyString => match x with EmptyString => true | _ => false end
  | String p pat' =>
      if Ascii.eqb p "%"%char then
        (fix any (y : string) : bool :=
           patternCompare pat' y
           || match y with
              | String _ y' => any y'
              | EmptyString => false
              end) x
      else
        match x with
        | String c x' =>
            (Ascii.eqb p "_"%char || Ascii.eqb (tolower p) (tolower c))
            && patternCompare pat' x'
        | EmptyString => false
        end
  end.

(** [x LIKE pat], for a pattern within the length limit below: the
    pattern and the text are both read up to their first U+0000. *)
Definition like (pat x : string) : bool :=
  patternCompare (c_str pat) (c_str x).

(** The number of bytes of the UTF-8 encoding: one for a character below
    U+0080, two for the others. *)
Fixpoint utf8_length (s : string) : Z :=
  match s with
  | String c s' => (if (Py.code c <? 128)%nat then 1 else 2) + utf8_length s'
  | EmptyString => 0
  end.

(** The default of [SQLITE_LIMIT_LIKE_PATTERN_LENGTH], in bytes. *)
Definition SQLITE_MAX_LIKE_PATTERN_LENGTH : Z := 50000.

(** LIKE takes the pattern; called with a longer one it fails, and the
    statement raises [sqlite3.OperationalError] (LIKE or GLOB pattern too
    complex). *)
Definition like_pattern_fits (pat : string) : bool :=
  (utf8_length pat <=? SQLITE_MAX_LIKE_PATTERN_LENGTH)%Z.

(** A Python [int] is bound as a 64-bit INTEGER; outside that range the
    binding raises [OverflowError]. *)
Definition fits_int64 (z : Z) : bool :=
  (- 2 ^ 63 <=? z)%Z && (z <=? 2 ^ 63 - 1)%Z.

(** [LIMIT lim OFFSET off]: a negative offset skips nothing, a negative
    limit does not bound the result. *)
Definition limit_offset {A} (lim off : Z) (rows : list A) : list A :=
  let rest := drop (Z.to_nat off) rows in
  if (lim <? 0)%Z then rest else take (Z.to_nat lim) rest.

End Sqlite.

(** ** app/storage.py *)
Module Storage.

(** The columns of table [messages] besides its primary key. *)
Record Columns := {
  from_msisdn : string;
  to_msisdn : string;
  ts : string;
  text : option string;
  created_at : string
}.

(** The table: [message_id TEXT PRIMARY KEY] maps to the other columns. *)
Abbreviation Table := (gmap string Columns).

(** A row as the queries select it, and as [fetch_messages] returns it
    (keys message_id, from, to, ts, text, created_at). *)
Abbreviation Row := (string * Columns)%type.

Definition message_id (r : Row) : string := r.1.
Definition row_from (r : Row) : string := from_msisdn r.2.
Definition row_ts (r : Row) : string := ts r.2.
Definition row_text (r : Row) : option string := text r.2.

(** [FROM messages] *)
Definition rows_of (conn : Table) : list Row := map_to_list conn.

(** Binding an [Optional[str]] parameter: [None] is bound as NULL. *)
Definition bind_optional (x : option Py.text) : option (option string) :=
  match x with
  | Some s => Some <$> Py.encode s
  | None => Some None
  end.

(** [insert_message]: [cur.execute] binds each [str] parameter by its
    UTF-8 encoding and raises [UnicodeEncodeError], before the statement
    runs, when one of them holds a lone surrogate: the result is then
    [None].  The INSERT raises [sqlite3.IntegrityError] when the primary
    key is taken; the result is [(created, duplicate)] and the table
    afterwards.  [now] is the value of [utc_now_iso()]. *)
Definition insert_message (now : string)
    (message_id from_msisdn to_msisdn ts : Py.text) (text : option Py.text)
    (conn : Table) : option ((bool * bool) * Table) :=
  message_id ← Py.encode message_id;
  from_msisdn ← Py.encode from_msisdn;
  to_msisdn ← Py.encode to_msisdn;
  ts ← Py.encode ts;
  text ← bind_optional text;
  match conn !! message_id with
  | None =>
      Some ((true, false),
            <[message_id := {| from_msisdn := from_msisdn;
                               to_msisdn := to_msisdn;
                               ts := ts; text := text; created_at := now |}]>
              conn)
  | Some _ => Some ((false, true), conn)
  end.

(** [_build_filters]: the WHERE clauses with their parameters bound, in
    the order they are appended. *)
Definition _build_filters (from_msisdn since q : option string)
    : list (Row → bool) :=
  (if Py.truthy from_msisdn
   then [λ r, String.eqb (row_from r) (default EmptyString from_msisdn)]
   else [])
  ++ (if Py.truthy since
      then [λ r, Sqlite.text_leb (default EmptyString since) (row_ts r)]
      else [])
  ++ (if Py.truthy q
      then [λ r, Sqlite.like
                   ("%" +:+ Py.lower (default EmptyString q) +:+ "%")
                   (Sqlite.LOWER (Sqlite.COALESCE (row_text r)))]
      else []).

(** [where_sql]: the clauses joined by AND; no clause, no WHERE. *)
Definition where_sql (clauses : list (Row → bool)) (r : Row) : bool :=
  forallb (λ c, c r) clauses.

(** [SELECT ... FROM messages {where_sql}] *)
Definition select_where (from_msisdn since q : option string) (conn : Table)
    : list Row :=
  filter (λ r, where_sql (_build_filters from_msisdn since q) r = true)
         (rows_of conn).

(** [cur.execute] of a SELECT under these WHERE clauses raises
    [sqlite3.OperationalError] when LIKE is called with a pattern beyond
    the limit.  The clauses are tested in turn on every row, so LIKE is
    called when some row passes the clauses before it. *)
Definition execute_raises (from_msisdn since q : option string) (conn : Table)
    : bool :=
  Py.truthy q
  && negb (Sqlite.like_pattern_fits
             ("%" +:+ Py.lower (default EmptyString q) +:+ "%"))
  && match select_where from_msisdn since None conn with
     | [] => false
     | _ :: _ => true
     end.

(** [count_messages]: the count that the statement yields when it does
    not raise. *)
Definition count_messages (from_msisdn since q : option string) (conn : Table)
    : nat :=
  length (select_where from_msisdn since q conn).

(** [ORDER BY ts ASC, message_id ASC] *)
Definition ts_id_leb (a b : Row) : bool :=
  match String.compare (row_ts a) (row_ts b) with
  | Lt => true
  | Eq => String.leb (message_id a) (message_id b)
  | Gt => false
  end.

Definition ts_id_le : relation Row := λ a b, ts_id_leb a b = true.

#[global] Instance ts_id_le_dec : RelDecision ts_id_le :=
  λ a b, decide (ts_id_leb a b = true).

(** The rows of the SELECT of [fetch_messages]:
    [... ORDER BY ts ASC, message_id ASC LIMIT ? OFFSET ?]. *)
Definition fetch_rows (from_msisdn since q : option string)
    (limit offset : Z) (conn : Table) : list Row :=
  Sqlite.limit_offset limit offset
    (merge_sort ts_id_le (select_where from_msisdn since q conn)).

(** [fetch_messages]: the rows, each as the dict of its six columns, that
    the statement yields when it does not raise; [None] when binding
    [limit] or [offset] raises [OverflowError]. *)
Definition fetch_messages (from_msisdn since q : option string)
    (limit offset : Z) (conn : Table) : option (list Row) :=
  if Sqlite.fits_int64 limit && Sqlite.fits_int64 offset
  then Some (fetch_rows from_msisdn since q limit offset conn)
  else None.

(** [ORDER BY] under the comparison [R] of its keys: the rows rearranged
    so that [R] holds along the result.  Rows that the keys do not tell
    apart come in an order the query does not fix. *)
Definition order_by {A} (R : relation A) (rows result : list A) : Prop :=
  result ≡ₚ rows ∧ Sorted R result.

Record Stats := {
  total_messages : nat;
  senders_count : nat;
  messages_per_sender : list (string * nat);
  first_message_ts : option string;
  last_message_ts : option string
}.

(** [SELECT from_msisdn AS sender, COUNT(..) AS cnt FROM messages
    GROUP BY from_msisdn]: one row per distinct sender. *)
Definition group_by_from_msisdn (conn : Table) : list (string * nat) :=
  (λ s, (s, length (filter (λ r, row_from r = s) (rows_of conn))))
    <$> remove_dups (row_from <$> rows_of conn).

(** [ORDER BY cnt DESC] *)
Definition cnt_desc : relation (string * nat) := λ a b, (b.2 ≤ a.2)%nat.

(** The rows of the top-senders query: [... ORDER BY cnt DESC LIMIT 10]. *)
Definition top_senders (conn : Table) (rows : list (string * nat)) : Prop :=
  ∃ sorted, order_by cnt_desc (group_by_from_msisdn conn) sorted
            ∧ rows = Sqlite.limit_offset 10 0 sorted.

(** [ORDER BY ts DESC, message_id DESC] *)
Definition ts_id_ge : relation Row := λ a b, ts_id_leb b a = true.

#[global] Instance ts_id_ge_dec : RelDecision ts_id_ge :=
  λ a b, decide (ts_id_leb b a = true).

(** [get_stats conn st]: [st] is a value [get_stats()] returns on [conn]. *)
Definition get_stats (conn : Table) (st : Stats) : Prop :=
  total_messages st = length (rows_of conn)
  ∧ senders_count st = length (remove_dups (row_from <$> rows_of conn))
  ∧ top_senders conn (messages_per_sender st)
  ∧ first_message_ts st
    = row_ts <$> head (Sqlite.limit_offset 1 0
                         (merge_sort ts_id_le (rows_of conn)))
  ∧ last_message_ts st
    = row_ts <$> head (Sqlite.limit_offset 1 0
                         (merge_sort ts_id_ge (rows_of conn))).

End Storage.

(** ** app/metrics.py *)
Module Metrics.

(** [d[k] += 1] on a [defaultdict(int)]: a key met for the first time
    enters after the keys already there. *)
Fixpoint bump {K} `{EqDecision K} (k : K) (d : list (K * nat))
    : list (K * nat) :=
  match d with
  | [] => [(k, 1%nat)]
  | (k', n) :: d' =>
      if decide (k = k') then (k', S n) :: d' else (k', n) :: bump k d'
  end.

(** [d.get(k)] on such a dictionary. *)
Fixpoint counter {K} `{EqDecision K} (k : K) (d : list (K * nat))
    : option nat :=
  match d with
  | [] => None
  | (k', n) :: d' => if decide (k = k') then Some n else counter k d'
  end.

(** The two module-level dictionaries, in the order of their items. *)
Record Registry := {
  _http_requests_total : list ((string * string) * nat);
  _webhook_requests_total : list (string * nat)
}.

Definition empty : Registry :=
  {| _http_requests_total := []; _webhook_requests_total := [] |}.

(** [str(status)] *)
Definition str_int (status : Z) : string := pretty status.

Definition inc_http (path : string) (status : Z) (m : Registry) : Registry :=
  {| _http_requests_total :=
       bump (path, str_int status) (_http_requests_total m);
     _webhook_requests_total := _webhook_requests_total m |}.

Definition inc_webhook (result : string) (m : Registry) : Registry :=
  {| _http_requests_total := _http_requests_total m;
     _webhook_requests_total := bump result (_webhook_requests_total m) |}.

(** The double quote, as a one-character string. *)
Definition DQUOTE : string := String "034"%char EmptyString.

Definition http_line (item : (string * string) * nat) : string :=
  "http_requests_total{path=" +:+ DQUOTE +:+ item.1.1 +:+ DQUOTE
  +:+ ",status=" +:+ DQUOTE +:+ item.1.2 +:+ DQUOTE +:+ "} "
  +:+ pretty item.2.

Definition webhook_line (item : string * nat) : string :=
  "webhook_requests_total{result=" +:+ DQUOTE +:+ item.1 +:+ DQUOTE +:+ "} "
  +:+ pretty item.2.

(** The list [lines] of [render_prometheus]. *)
Definition render_lines (m : Registry) : list string :=
  ["# TYPE http_requests_total counter"]
  ++ (http_line <$> _http_requests_total m)
  ++ ["# TYPE webhook_requests_total counter"]
  ++ (webhook_line <$> _webhook_requests_total m).

Definition render_prometheus (m : Registry) : string :=
  String.concat Re.LF (render_lines m) +:+ Re.LF.

End Metrics.

(** ** app/main.py *)
Module Main.

(** A decoded JSON document, as [request.json()] returns it. *)
#[local] Unset Elimination Schemes.
Inductive json :=
| JNull
| JBool (b : bool)
| JNumber (literal : string)
| JString (s : Py.text)
| JArray (items : list json)
| JObject (members : list (string * json)).
#[local] Set Elimination Schemes.

(** [d.get(k)] on a decoded object, whose members are listed once per key. *)
Fixpoint dict_get (k : string) (d : list (string * json)) : option json :=
  match d with
  | [] => None
  | (k', v) :: d' => if String.eqb k k' then Some v else dict_get k d'
  end.

Record WebhookMessage := {
  message_id : Py.text;
  from_ : Py.text;
  to : Py.text;
  ts : Py.text;
  text : option Py.text
}.

(** A required field of type [str]. *)
Definition required_str (k : string) (payload : list (string * json))
    : option Py.text :=
  match dict_get k payload with
  | Some (JString s) => Some s
  | _ => None
  end.

(** A [str] under a length constraint: the validator reads the value as
    UTF-8 before it measures it, and refuses one that holds a lone
    surrogate. *)
Definition constrained_str (min_length : nat) (max_length : option nat)
    (s : Py.text) : option Py.text :=
  s' ← Py.encode s;
  if (min_length <=? String.length s')%nat
     && from_option (Nat.leb (String.length s')) true max_length
  then Some s else None.

(** [WebhookMessage( **payload )]: the model is built from the keys
    message_id, from, to, ts and text; [None] stands for the validation
    error the constructor raises.  Other keys are ignored.  The fields
    from, to and ts are of type [str] with no constraint and are taken as
    they are. *)
Definition WebhookMessage_init (payload : list (string * json))
    : option WebhookMessage :=
  mid ← required_str "message_id" payload;
  mid ← constrained_str 1 None mid;
  f ← required_str "from" payload;
  t ← required_str "to" payload;
  s ← required_str "ts" payload;
  txt ← match dict_get "text" payload with
        | None | Some JNull => Some None
        | Some (JString x) => Some <$> constrained_str 0 (Some 4096%nat) x
        | Some _ => None
        end;
  Some {| message_id := mid; from_ := f; to := t; ts := s; text := txt |}.

(** What a handler produces: the returned body, an [HTTPException], or an
    exception that leaves the handler uncaught (answered with 500). *)
Inductive reply (A : Type) :=
| Return (body : A)
| HTTPException (status_code : Z) (detail : option string)
| Uncaught (exception : string).
Arguments Return {A} body.
Arguments HTTPException {A} status_code detail.
Arguments Uncaught {A} exception.

Definition status_of {A} (r : reply A) : Z :=
  match r with
  | Return _ => 200
  | HTTPException c _ => c
  | Uncaught _ => 500
  end.

(** The body of the acknowledgment: the object with the one member
    status = ok. *)
Definition ack : list (string * string) := [("status", "ok")].

(** A run of [webhook]: the reply, the values the [finally] block
    reports ([result], [dup]), and the table afterwards. *)
Record WebhookRun := {
  response : reply (list (string * string));
  result : string;
  dup : bool;
  store : Storage.Table
}.

Record Envelope := {
  data : list Storage.Row;
  total : nat;
  limit : Z;
  offset : Z
}.

Section handlers.

(** [WEBHOOK_SECRET] is the configured secret; [hmac_hexdigest key msg] is
    [hmac.new(key, msg, sha256).hexdigest()]; [json_loads] decodes a body
    ([None] when it is not JSON); [fromisoformat s] tells whether
    [datetime.fromisoformat(s)] returns; [now] is the clock reading of
    [utc_now_iso()] during the call. *)
Context (WEBHOOK_SECRET : string)
        (hmac_hexdigest : string → string → string)
        (json_loads : string → option json)
        (fromisoformat : Py.text → bool)
        (now : string).

(** [validate_fields]: [inl] carries the message of the [ValueError]. *)
Definition validate_fields (self : WebhookMessage) : string + unit :=
  if negb (Re.E164_REGEX_match (from_ self)) then inl "Invalid from number"
  else if negb (Re.E164_REGEX_match (to self)) then inl "Invalid to number"
  else if negb (Py.endswith (Py.wide "Z") (ts self))
       then inl "ts must end with Z"
  else if negb (fromisoformat
                  (Py.replace_char "Z" (Py.wide "+00:00") (ts self)))
       then inl "Invalid ts format"
  else inr ().

Definition compute_signature (secret raw_body : string) : string :=
  hmac_hexdigest secret raw_body.

(** [webhook]: [x_signature] is the X-Signature header when the request
    carries one (the parameter defaults to the empty string). *)
Definition webhook (x_signature : option string) (raw_body : string)
    (conn : Storage.Table) : WebhookRun :=
  if String.eqb WEBHOOK_SECRET EmptyString then
    {| response := HTTPException 503 (Some "webhook secret not configured");
       result := "secret_missing"; dup := false; store := conn |}
  else
    let x_signature := default EmptyString x_signature in
    let expected_sig := compute_signature WEBHOOK_SECRET raw_body in
    if negb (Py.truthy (Some x_signature))
       || negb (String.eqb x_signature expected_sig) then
      {| response := HTTPException 401 (Some "invalid signature");
         result := "invalid_signature"; dup := false; store := conn |}
    else
      match json_loads raw_body with
      | None =>
          {| response := HTTPException 422 (Some "invalid json");
             result := "validation_error"; dup := false; store := conn |}
      | Some (JObject payload) =>
          match WebhookMessage_init payload with
          | None =>
              {| response := HTTPException 422 None;
                 result := "validation_error"; dup := false; store := conn |}
          | Some msg =>
              match validate_fields msg with
              | inl e =>
                  {| response := HTTPException 422 (Some e);
                     result := "validation_error"; dup := false;
                     store := conn |}
              | inr _ =>
                  match Storage.insert_message now (message_id msg)
                          (from_ msg) (to msg) (ts msg) (text msg) conn with
                  | Some ((created, duplicate), conn') =>
                      {| response := Return ack;
                         result := if duplicate then "duplicate"
                                   else "created";
                         dup := duplicate; store := conn' |}
                  | None =>
                      (* raised by cur.execute; no except clause takes it *)
                      {| response := Uncaught "UnicodeEncodeError";
                         result := "unknown"; dup := false; store := conn |}
                  end
              end
          end
      | Some _ =>
          (* payload.get on a value that is no dict *)
          {| response := Uncaught "AttributeError";
             result := "unknown"; dup := false; store := conn |}
      end.

(** Lines 190-194 of [get_messages]: the value of [from_msisdn] that is
    handed to the queries. *)
Definition from_filter (from_msisdn : option string) : option string :=
  if Py.truthy from_msisdn then
    let s := Py.strip (default EmptyString from_msisdn) in
    match s with
    | String c _ =>
        if negb (Py.startswith "+" s) && Py.isdigit c
        then Some ("+" +:+ s) else Some s
    | EmptyString => Some s
    end
  else from_msisdn.

(** [get_messages]: an absent [limit] or [offset] takes its default.
    The first statement to run is the one of [count_messages]; when its
    [execute] raises, nothing catches the exception. *)
Definition get_messages (limit offset : option Z)
    (from_msisdn since q : option string) (conn : Storage.Table)
    : reply Envelope :=
  let limit := default 50%Z limit in
  let offset := default 0%Z offset in
  if (limit <? 1)%Z then HTTPException 422 (Some "limit must be >= 1")
  else if (limit >? 100)%Z then HTTPException 422 (Some "limit must be <= 100")
  else if (offset <? 0)%Z then HTTPException 422 (Some "offset must be >= 0")
  else
    let from_msisdn := from_filter from_msisdn in
    if Storage.execute_raises from_msisdn since q conn
    then Uncaught "OperationalError"
    else
      let total := Storage.count_messages from_msisdn since q conn in
      match Storage.fetch_messages from_msisdn since q limit offset conn with
      | Some data =>
          Return {| data := data; total := total; limit := limit;
                    offset := offset |}
      | None => Uncaught "OverflowError"
      end.

(** [stats] *)
Definition stats (conn : Storage.Table) (st : Storage.Stats) : Prop :=
  Storage.get_stats conn st.

(** [live] *)
Definition live : reply (list (string * string)) :=
  Return [("status", "live")].

(** [ready]: the status code and the body of the response. *)
Definition ready : Z * list (string * string) :=
  if String.eqb WEBHOOK_SECRET EmptyString
  then (503%Z, [("status", "not-ready")])
  else (200%Z, [("status", "ready")]).

(** The counting of [json_logging_middleware]: [inc_http] runs when
    [call_next] hands back a response and is passed over when it raises.
    An [HTTPException] comes back as the response of its status code. *)
Definition json_logging_middleware {A} (path : string) (r : reply A)
    (m : Metrics.Registry) : Metrics.Registry :=
  match r with
  | Uncaught _ => m
  | _ => Metrics.inc_http path (status_of r) m
  end.

(** One POST /webhook as the application serves it: the handler, the
    [inc_webhook(result)] of its [finally] block, then the middleware. *)
Definition serve_webhook (x_signature : option string) (raw_body : string)
    (st : Storage.Table * Metrics.Registry)
    : reply (list (string * string)) * (Storage.Table * Metrics.Registry) :=
  let run := webhook x_signature raw_body st.1 in
  (response run,
   (store run,
    json_logging_middleware "/webhook" (response run)
      (Metrics.inc_webhook (result run) st.2))).

(** A sequence of deliveries, each a header and a body, served in turn. *)
Fixpoint serve_all (requests : list (option string * string))
    (st : Storage.Table * Metrics.Registry)
    : Storage.Table * Metrics.Registry :=
  match requests with
  | [] => st
  | (x_signature, raw_body) :: rest =>
      serve_all rest (serve_webhook x_signature raw_body st).2
  end.

End handlers.

End Main.

(** ** The wording of the specification

    The predicates below read the properties the way the specification
    words them; the theorems compare them with the code above. *)
Module Spec.

(** [a < b] on TEXT. *)
Definition text_lt (a b : string) : Prop := String.compare a b = Lt.

(** Sorted by ts ascending, ties broken by message_id ascending. *)
Definition sorted_ts_then_id (l : list Storage.Row) : Prop :=
  ∀ (i j : nat) (a b : Storage.Row),
    l !! i = Some a → l !! j = Some b → (i < j)%nat →
    text_lt (Storage.row_ts a) (Storage.row_ts b)
    ∨ (Storage.row_ts a = Storage.row_ts b
       ∧ text_lt (Storage.message_id a) (Storage.message_id b)).

(** Ranked by message count descending. *)
Definition ranked_by_count (l : list (string * nat)) : Prop :=
  ∀ (i j : nat) (a b : string * nat),
    l !! i = Some a → l !! j = Some b → (i < j)%nat → (b.2 ≤ a.2)%nat.

(** Senders with equal counts appear in ascending order of from_msisdn. *)
Definition ties_ascending (l : list (string * nat)) : Prop :=
  ∀ (i j : nat) (a b : string * nat),
    l !! i = Some a → l !! j = Some b → (i < j)%nat → a.2 = b.2 →
    text_lt a.1 b.1.

Fixpoint all_ascii_digits (s : string) : bool :=
  match s with
  | String c s' => Py.is_ascii_digit c && all_ascii_digits s'
  | EmptyString => true
  end.

(** E.164: a plus sign, then 8 to 15 digits of which the first is 1..9. *)
Definition is_e164 (s : string) : bool :=
  match s with
  | String p (String d rest) =>
      Ascii.eqb p "+"%char
      && Py.between 49 57 (Py.code d) && all_ascii_digits rest
      && Py.between 7 14 (String.length rest)
  | _ => false
  end.

Fixpoint is_substring (q s : string) : bool :=
  String.prefix q s
  || match s with
     | String _ s' => is_substring q s'
     | EmptyString => false
     end.

(** [q] is a case-insensitive substring of [text]. *)
Definition contains_nocase (q text : string) : bool :=
  is_substring (Py.lower q) (Py.lower text).

(** The normalisation of the from filter: a plus sign is prepended when
    the first character is a digit and the value does not start with a
    plus sign; otherwise the value is left as it is. *)
Definition from_as_worded (v : string) : string :=
  match v with
  | String c _ =>
      if Py.isdigit c && negb (Py.startswith "+" v) then "+" +:+ v else v
  | EmptyString => v
  end.

Fixpoint all_chars (P : ascii → bool) (s : string) : bool :=
  match s with
  | String c s' => P c && all_chars P s'
  | EmptyString => true
  end.

(** A character of the ASCII range. *)
Definition is_ascii7 (c : ascii) : bool := (Py.code c <? 128)%nat.

(** The two characters that LIKE reads as wildcards. *)
Definition is_wildcard (c : ascii) : bool :=
  Ascii.eqb c "%"%char || Ascii.eqb c "_"%char.

(** A character that [sqlite3Tolower] leaves as it is. *)
Definition folded (c : ascii) : bool := Ascii.eqb (Sqlite.tolower c) c.

(** A folded character that is no wildcard. *)
Definition literal (c : ascii) : bool := negb (is_wildcard c) && folded c.

(** What the webhook checks on a message, read on the stored row. *)
Definition stored_validated (fromisoformat : Py.text → bool) (mid : string)
    (c : Storage.Columns) : Prop :=
  mid ≠ EmptyString
  ∧ Re.E164_REGEX_match (Py.wide (Storage.from_msisdn c)) = true
  ∧ Re.E164_REGEX_match (Py.wide (Storage.to_msisdn c)) = true
  ∧ Py.endswith (Py.wide "Z") (Py.wide (Storage.ts c)) = true
  ∧ fromisoformat
      (Py.replace_char "Z" (Py.wide "+00:00") (Py.wide (Storage.ts c)))
    = true
  ∧ ∀ x, Storage.text c = Some x → (String.length x ≤ 4096)%nat.

(** A stored record satisfies the filters of a request: its sender is
    the from value with its plus sign restored, its ts is not below
    since, and q is a case-insensitive substring of its text, an absent
    text being read as the empty string.  A filter that is absent or
    empty sets no condition. *)
Definition satisfies (from since q : option string) (r : Storage.Row)
    : bool :=
  match from with
  | Some (String c v) =>
      String.eqb (Storage.row_from r) (from_as_worded (String c v))
  | _ => true
  end
  && match since with
     | Some (String c v) => String.leb (String c v) (Storage.row_ts r)
     | _ => true
     end
  && match q with
     | Some (String c v) =>
         contains_nocase (String c v) (default EmptyString (Storage.row_text r))
     | _ => true
     end.

(** A character other than U+0000. *)
Definition not_nul (c : ascii) : bool := negb (Ascii.eqb c "000"%char).

(** The value of a counter, zero when it has no entry. *)
Definition count_of {K} `{EqDecision K} (k : K) (d : list (K * nat)) : nat :=
  default 0%nat (Metrics.counter k d).

(** How the two dictionaries and the table stand to each other after [n]
    deliveries: the created counter is the number of rows, the webhook
    counters add up to [n], the http counters add up to [n] less the
    deliveries of result unknown, and the http counter of status 200 is
    the created and the duplicate counter together. *)
Definition counters_agree (st : Storage.Table * Metrics.Registry) (n : nat)
    : Prop :=
  let wh := Metrics._webhook_requests_total st.2 in
  let http := Metrics._http_requests_total st.2 in
  count_of "created" wh = size st.1
  ∧ sum_list_with snd wh = n
  ∧ (sum_list_with snd http + count_of "unknown" wh)%nat = n
  ∧ count_of ("/webhook", Metrics.str_int 200) http
    = (count_of "created" wh + count_of "duplicate" wh)%nat.

Fixpoint whitespace_only (s : string) : bool :=
  match s with
  | String c s' => Py.isspace c && whitespace_only s'
  | EmptyString => true
  end.

End Spec.

(** ** Sample tables

    Small stores on which the statements below are evaluated. *)
Module Examples.
Import Storage.

Definition msg (from_ ts_ : string) (text_ : option string) : Columns :=
  {| from_msisdn := from_; to_msisdn := "+14155550100"; ts := ts_;
     text := text_; created_at := "2025-01-15T10:05:00Z" |}.

(** Two messages of one sender that share their timestamp. *)
Definition same_ts : Table :=
  <["m2" := msg "+919876543210" "2025-01-15T10:00:00Z" (Some "Second message")]>
    (<["m1" := msg "+919876543210" "2025-01-15T10:00:00Z" (Some "Hello world")]> ∅).

(** One message each of two senders. *)
Definition two_senders : Table :=
  <["m2" := msg "+922222222222" "2025-01-15T10:01:00Z" (Some "hello again")]>
    (<["m1" := msg "+911111111111" "2025-01-15T10:00:00Z" (Some "hello")]> ∅).

(** A phone number followed by a line feed. *)
Definition msisdn_newline : string := "+919876543210" +:+ Re.LF.

(** The decoded body of a delivery whose from ends in a line feed. *)
Definition newline_payload : list (string * Main.json) :=
  [("message_id", Main.JString (Py.wide "m1"));
   ("from", Main.JString (Py.wide msisdn_newline));
   ("to", Main.JString (Py.wide "+14155550100"));
   ("ts", Main.JString (Py.wide "2025-01-15T10:00:00Z"));
   ("text", Main.JString (Py.wide "Hello world"))].

(** The decoded body of the specification's example delivery. *)
Definition hello_payload : list (string * Main.json) :=
  [("message_id", Main.JString (Py.wide "m1"));
   ("from", Main.JString (Py.wide "+919876543210"));
   ("to", Main.JString (Py.wide "+14155550100"));
   ("ts", Main.JString (Py.wide "2025-01-15T10:00:00Z"));
   ("text", Main.JString (Py.wide "Hello world"))].

(** The timestamp of the example with the lone surrogate U+D800 between
    the date and the time, and the decoded body of a delivery with that
    ts. *)
Definition surrogate_ts : Py.text :=
  (Py.wide "2025-01-15" ++ [Py.Surrogate 0%fin] ++ Py.wide "10:00:00Z")%list.


(** Stand-ins for the library calls, fixed on the sample deliveries: a
    digest, a decoder that yields the given payload, and a timestamp
    parser that knows the one timestamp of the samples, with any one
    character between the date and the time. *)
Definition digest_stub (key msg : string) : string := "5f2c" +:+ key.
Definition decoder_stub (payload : list (string * Main.json)) (body : string)
    : option Main.json :=
  Some (Main.JObject payload).
Definition parser_stub (s : Py.text) : bool :=
  Py.text_prefix (Py.wide "2025-01-15") s
  && (length s =? 25)%nat
  && Py.text_prefix (Py.wide "10:00:00+00:00") (drop 11 s).

(** The single message of the specification's example. *)
Definition hello_world : Table :=
  <["m1" := msg "+919876543210" "2025-01-15T10:00:00Z" (Some "Hello world")]> ∅.

(** Eleven senders with one message each. *)
Definition eleven_senders : Table :=
  list_to_map
    ((λ d : string,
        ("m" +:+ d, msg ("+9111111111" +:+ d) "2025-01-15T10:00:00Z" None))
       <$> ["01"; "02"; "03"; "04"; "05"; "06"; "07"; "08"; "09"; "10"; "11"]).

(** The first ten of them, each with its count. *)
Definition ten_listed : list (string * nat) :=
  (λ d : string, ("+9111111111" +:+ d, 1%nat))
    <$> ["01"; "02"; "03"; "04"; "05"; "06"; "07"; "08"; "09"; "10"].

(** The capital E with acute accent, U+00C9, and a message with that text. *)
Definition E_acute : string := String (ascii_of_nat 201) EmptyString.

Definition accented : Table :=
  <["m1" := msg "+919876543210" "2025-01-15T10:00:00Z" (Some E_acute)]> ∅.

(** The character U+0000 as a string, and a message whose text is the
    letter a, that character and the letter b. *)
Definition NUL : string := String "000"%char EmptyString.

Definition nul_text : Table :=
  <["m1" := msg "+919876543210" "2025-01-15T10:00:00Z"
              (Some ("a" +:+ NUL +:+ "b"))]> ∅.

(** A q of 49999 letters: the pattern made from it has 50001 bytes. *)
Definition long_q : string :=
  string_of_list_ascii (replicate (Z.to_nat 49999) "a"%char).

End Examples.

(** * Properties *)

(** ** Ranges of character codes *)

Lemma between_spec (lo hi n : nat) :
  Py.between lo hi n = true ↔ (lo ≤ n ≤ hi)%nat.
Proof.
  unfold Py.between. rewrite andb_true_iff, !Nat.leb_le. done.
Qed.

(** ** The order of TEXT values *)
Section text_order.

Lemma ascii_compare_refl (c : ascii) : Ascii.compare c c = Eq.
Proof. unfold Ascii.compare. apply N.compare_refl. Qed.

Lemma ascii_compare_lt_trans (x y z : ascii) :
  Ascii.compare x y = Lt → Ascii.compare y z = Lt → Ascii.compare x z = Lt.
Proof. unfold Ascii.compare. rewrite !N.compare_lt_iff. lia. Qed.

Lemma compare_refl (s : string) : String.compare s s = Eq.
Proof. induction s as [|c s IH]; simpl; [done|]. by rewrite ascii_compare_refl. Qed.

Lemma compare_lt_trans (a b c : string) :
  String.compare a b = Lt → String.compare b c = Lt → String.compare a c = Lt.
Proof.
  revert b c. induction a as [|x a IH]; intros [|y b] [|z c]; simpl; try done.
  destruct (Ascii.compare x y) eqn:Exy; try done;
    destruct (Ascii.compare y z) eqn:Eyz; try done.
  - apply Ascii.compare_eq_iff in Exy, Eyz. subst.
    rewrite ascii_compare_refl. apply IH.
  - apply Ascii.compare_eq_iff in Exy. subst. by rewrite Eyz.
  - apply Ascii.compare_eq_iff in Eyz. subst. by rewrite Exy.
  - by rewrite (ascii_compare_lt_trans _ _ _ Exy Eyz).
Qed.

Lemma leb_trans (a b c : string) :
  String.leb a b = true → String.leb b c = true → String.leb a c = true.
Proof.
  unfold String.leb.
  destruct (String.compare a b) eqn:Eab; try done;
    destruct (String.compare b c) eqn:Ebc; try done; intros _ _.
  - apply String.compare_eq_iff in Eab, Ebc. subst. by rewrite compare_refl.
  - apply String.compare_eq_iff in Eab. subst. by rewrite Ebc.
  - apply String.compare_eq_iff in Ebc. subst. by rewrite Eab.
  - by rewrite (compare_lt_trans _ _ _ Eab Ebc).
Qed.

End text_order.

(** ** The order of [fetch_messages] *)
Section row_order.
Import Storage.

#[global] Instance ts_id_le_total : Total ts_id_le.
Proof.
  intros a b. unfold ts_id_le, ts_id_leb.
  rewrite (String.compare_antisym (row_ts a) (row_ts b)).
  destruct (String.compare (row_ts b) (row_ts a)); simpl; auto.
  apply String.leb_total.
Qed.

#[global] Instance ts_id_le_trans : Transitive ts_id_le.
Proof.
  intros a b c. unfold ts_id_le, ts_id_leb.
  destruct (String.compare (row_ts a) (row_ts b)) eqn:Eab; try done;
    destruct (String.compare (row_ts b) (row_ts c)) eqn:Ebc; try done.
  - apply String.compare_eq_iff in Eab, Ebc. rewrite Eab, Ebc, compare_refl.
    apply leb_trans.
  - apply String.compare_eq_iff in Eab. by rewrite Eab, Ebc.
  - apply String.compare_eq_iff in Ebc. by rewrite <- Ebc, Eab.
  - by rewrite (compare_lt_trans _ _ _ Eab Ebc).
Qed.

(** Two rows that precede each other carry the same key. *)
Lemma ts_id_le_antisym_key (a b : Row) :
  ts_id_le a b → ts_id_le b a → message_id a = message_id b.
Proof.
  unfold ts_id_le, ts_id_leb.
  rewrite (String.compare_antisym (row_ts a) (row_ts b)).
  destruct (String.compare (row_ts b) (row_ts a)); simpl; try done.
  apply String.leb_antisym.
Qed.

End row_order.

(** ** Lists: sorted lists and their sublists *)
Section sorted_lists.
Context {A : Type} (R : relation A).

Lemma StronglySorted_sublist (l1 l2 : list A) :
  l1 `sublist_of` l2 → StronglySorted R l2 → StronglySorted R l1.
Proof.
  induction 1 as [|x l1 l2 Hsub IH|x l1 l2 Hsub IH]; intros Hs.
  - constructor.
  - apply StronglySorted_inv in Hs as [Hs Hall]. constructor; [by apply IH|].
    rewrite Forall_forall in Hall |- *. intros y Hy. apply Hall.
    by eapply elem_of_sublist.
  - apply StronglySorted_inv in Hs as [Hs _]. by apply IH.
Qed.

Lemma StronglySorted_lookup (l : list A) (i j : nat) (a b : A) :
  StronglySorted R l → l !! i = Some a → l !! j = Some b → i < j → R a b.
Proof.
  intros Hs. revert i j. induction Hs as [|x l Hs IH Hall]; intros i j Hi Hj Hlt.
  - by rewrite lookup_nil in Hi.
  - destruct j as [|j]; [lia|]. destruct i as [|i]; simpl in *.
    + simplify_eq. rewrite Forall_forall in Hall. apply Hall.
      by eapply list_elem_of_lookup_2.
    + eapply IH; eauto. lia.
Qed.

End sorted_lists.

Lemma limit_offset_sublist {A} (lim off : Z) (l : list A) :
  Sqlite.limit_offset lim off l `sublist_of` l.
Proof.
  unfold Sqlite.limit_offset. destruct (lim <? 0)%Z.
  - apply sublist_drop.
  - etrans; [apply sublist_take|apply sublist_drop].
Qed.

(** Inside the range the handler admits, LIMIT and OFFSET are [take]
    after [drop]. *)
Lemma limit_offset_lookup {A} (lim off : Z) (l : list A) (i : nat) :
  (0 ≤ lim)%Z → (i < Z.to_nat lim)%nat →
  Sqlite.limit_offset lim off l !! i = l !! (Z.to_nat off + i)%nat.
Proof.
  intros Hlim Hi. unfold Sqlite.limit_offset.
  destruct (Z.ltb_spec lim 0); [lia|].
  by rewrite lookup_take_lt, lookup_drop.
Qed.

Lemma limit_offset_length {A} (lim off : Z) (l : list A) :
  (0 ≤ lim)%Z →
  length (Sqlite.limit_offset lim off l)
  = (Z.to_nat lim `min` (length l - Z.to_nat off))%nat.
Proof.
  intros Hlim. unfold Sqlite.limit_offset.
  destruct (Z.ltb_spec lim 0); [lia|].
  by rewrite length_take, length_drop.
Qed.

(** ** The queries of app/storage.py *)
Section queries.
Import Storage.

Lemma select_where_sublist (f s q : option string) (conn : Table) :
  select_where f s q conn `sublist_of` rows_of conn.
Proof. apply sublist_filter. Qed.

(** A row is selected when it is stored and passes every clause. *)
Lemma elem_of_select_where (f s q : option string) (conn : Table) (r : Row) :
  r ∈ select_where f s q conn
  ↔ conn !! message_id r = Some r.2
    ∧ where_sql (_build_filters f s q) r = true.
Proof.
  unfold select_where, rows_of. rewrite list_elem_of_filter.
  destruct r as [k c]. rewrite elem_of_map_to_list. simpl. tauto.
Qed.

Lemma rows_of_keys_NoDup (conn : Table) : NoDup (message_id <$> rows_of conn).
Proof. apply NoDup_fst_map_to_list. Qed.

Lemma sorted_rows_keys_NoDup (f s q : option string) (conn : Table) :
  NoDup (message_id <$> merge_sort ts_id_le (select_where f s q conn)).
Proof.
  rewrite merge_sort_Permutation.
  eapply sublist_NoDup; [apply rows_of_keys_NoDup|].
  apply fmap_sublist, select_where_sublist.
Qed.

Lemma fetch_rows_keys_NoDup (f s q : option string) (lim off : Z)
    (conn : Table) :
  NoDup (message_id <$> fetch_rows f s q lim off conn).
Proof.
  eapply sublist_NoDup; [apply (sorted_rows_keys_NoDup f s q conn)|].
  apply fmap_sublist, limit_offset_sublist.
Qed.

Lemma fetch_rows_StronglySorted (f s q : option string) (lim off : Z)
    (conn : Table) :
  StronglySorted ts_id_le (fetch_rows f s q lim off conn).
Proof.
  eapply StronglySorted_sublist; [apply limit_offset_sublist|].
  apply StronglySorted_merge_sort; apply _.
Qed.

(** With the key unique, the comparison of two different rows is strict. *)
Lemma ts_id_le_strict (a b : Row) :
  ts_id_le a b → message_id a ≠ message_id b →
  Spec.text_lt (row_ts a) (row_ts b)
  ∨ (row_ts a = row_ts b ∧ Spec.text_lt (message_id a) (message_id b)).
Proof.
  unfold ts_id_le, ts_id_leb, Spec.text_lt. intros Hle Hne.
  destruct (String.compare (row_ts a) (row_ts b)) eqn:Ets; [|by left|done].
  right. split; [by apply String.compare_eq_iff|].
  unfold String.leb in Hle.
  destruct (String.compare (message_id a) (message_id b)) eqn:Eid; try done.
  by apply String.compare_eq_iff in Eid.
Qed.

Lemma fetch_rows_sorted (f s q : option string) (lim off : Z)
    (conn : Table) :
  Spec.sorted_ts_then_id (fetch_rows f s q lim off conn).
Proof.
  intros i j a b Hi Hj Hlt. apply ts_id_le_strict.
  - eapply StronglySorted_lookup; eauto using fetch_rows_StronglySorted.
  - intros Heq.
    pose proof (fetch_rows_keys_NoDup f s q lim off conn) as Hnd.
    assert (i = j); [|lia].
    eapply NoDup_lookup; [exact Hnd| |].
    + rewrite list_lookup_fmap, Hi. done.
    + rewrite list_lookup_fmap, Hj. simpl. by rewrite Heq.
Qed.

(** X21: the ORDER BY of [fetch_rows] fixes the result: any arrangement of
    the selected rows that respects the two keys is the one computed. *)
Lemma order_by_ts_id_unique (f s q : option string) (conn : Table)
    (result : list Row) :
  order_by ts_id_le (select_where f s q conn) result →
  result = merge_sort ts_id_le (select_where f s q conn).
Proof.
  intros [Hperm Hsorted].
  apply (Sorted_unique_strong ts_id_le); [|done|apply Sorted_merge_sort; apply _|].
  - intros x1 x2 Hx1 Hx2 H12 H21.
    pose proof (ts_id_le_antisym_key _ _ H12 H21) as Hk.
    rewrite Hperm in Hx1. rewrite merge_sort_Permutation in Hx2.
    apply elem_of_select_where in Hx1 as [Hx1 _].
    apply elem_of_select_where in Hx2 as [Hx2 _].
    destruct x1 as [k1 c1], x2 as [k2 c2]. simpl in *.
    unfold message_id in *. simpl in *. subst. congruence.
  - by rewrite Hperm, merge_sort_Permutation.
Qed.

Lemma fetch_rows_length (f s q : option string) (lim off : Z)
    (conn : Table) :
  (0 ≤ lim)%Z →
  length (fetch_rows f s q lim off conn)
  = (Z.to_nat lim `min` (count_messages f s q conn - Z.to_nat off))%nat.
Proof.
  intros Hlim. unfold fetch_rows, count_messages.
  rewrite limit_offset_length by done.
  by rewrite merge_sort_Permutation.
Qed.

End queries.

(** ** GET /messages *)
Section get_messages_properties.
Import Storage.

Lemma elem_of_page_1 {A} (off : Z) (l : list A) (a : A) :
  a ∈ Sqlite.limit_offset 1 off l → l !! Z.to_nat off = Some a.
Proof.
  intros [i Hi]%list_elem_of_lookup_1.
  pose proof (lookup_lt_Some _ _ _ Hi) as Hlen.
  rewrite limit_offset_length in Hlen by lia.
  assert (i = 0%nat) as -> by lia.
  rewrite limit_offset_lookup in Hi by lia.
  by rewrite Nat.add_0_r in Hi.
Qed.

Lemma get_messages_Return (limit offset : option Z)
    (from since q : option string) (conn : Table) (env : Main.Envelope) :
  Main.get_messages limit offset from since q conn = Main.Return env →
  (1 ≤ default 50 limit ≤ 100)%Z ∧ (0 ≤ default 0 offset < 2 ^ 63)%Z
  ∧ env = {| Main.data :=
               fetch_rows (Main.from_filter from) since q
                 (default 50%Z limit) (default 0%Z offset) conn;
             Main.total := count_messages (Main.from_filter from) since q conn;
             Main.limit := default 50%Z limit;
             Main.offset := default 0%Z offset |}.
Proof.
  unfold Main.get_messages, fetch_messages, Sqlite.fits_int64.
  destruct (Z.ltb_spec (default 50%Z limit) 1); [done|].
  destruct (Z.gtb_spec (default 50%Z limit) 100); [done|].
  destruct (Z.ltb_spec (default 0%Z offset) 0); [done|].
  destruct (execute_raises _ _ _ _); [done|].
  destruct (Z.leb_spec (- 2 ^ 63) (default 50%Z limit)); [|lia].
  destruct (Z.leb_spec (default 50%Z limit) (2 ^ 63 - 1)); [|lia].
  destruct (Z.leb_spec (- 2 ^ 63) (default 0%Z offset)); [|lia].
  destruct (Z.leb_spec (default 0%Z offset) (2 ^ 63 - 1)); [|done].
  intros [= <-]. repeat split; lia.
Qed.

(** C2: the records GET /messages returns are sorted by ts ascending,
    ties broken by message_id ascending, whatever the filters; and on one
    table the pages limit=1, offset=0 and limit=1, offset=1 hold no
    message_id in common. *)
Theorem get_messages_sorted_pages_differ (limit offset : option Z)
    (from since q : option string) (conn : Table) (env : Main.Envelope) :
  Main.get_messages limit offset from since q conn = Main.Return env →
  Spec.sorted_ts_then_id (Main.data env)
  ∧ ∀ (page0 page1 : Main.Envelope) (a b : Row),
      Main.get_messages (Some 1%Z) (Some 0%Z) from since q conn
        = Main.Return page0 →
      Main.get_messages (Some 1%Z) (Some 1%Z) from since q conn
        = Main.Return page1 →
      a ∈ Main.data page0 → b ∈ Main.data page1 →
      message_id a ≠ message_id b.
Proof.
  intros (_ & _ & ->)%get_messages_Return. split.
  { apply fetch_rows_sorted. }
  intros page0 page1 a b (_ & _ & ->)%get_messages_Return
    (_ & _ & ->)%get_messages_Return Ha Hb Heq. simpl in Ha, Hb.
  apply elem_of_page_1 in Ha, Hb.
  pose proof (sorted_rows_keys_NoDup (Main.from_filter from) since q conn) as Hnd.
  assert (Z.to_nat 0 = Z.to_nat 1); [|lia].
  eapply NoDup_lookup; [exact Hnd| |].
  - rewrite list_lookup_fmap, Ha. done.
  - rewrite list_lookup_fmap, Hb. simpl. by rewrite Heq.
Qed.

Lemma get_messages_sorted_pages_differ_witness :
  Spec.sorted_ts_then_id
    [("m1", Examples.msg "+919876543210" "2025-01-15T10:00:00Z" (Some "Hello world"));
     ("m2", Examples.msg "+919876543210" "2025-01-15T10:00:00Z" (Some "Second message"))]
  ∧ ∀ (page0 page1 : Main.Envelope) (a b : Row),
      Main.get_messages (Some 1%Z) (Some 0%Z) None None None Examples.same_ts
        = Main.Return page0 →
      Main.get_messages (Some 1%Z) (Some 1%Z) None None None Examples.same_ts
        = Main.Return page1 →
      a ∈ Main.data page0 → b ∈ Main.data page1 →
      message_id a ≠ message_id b.
Proof.
  exact (get_messages_sorted_pages_differ None None None None None
           Examples.same_ts
           {| Main.data :=
                [("m1", Examples.msg "+919876543210" "2025-01-15T10:00:00Z"
                          (Some "Hello world"));
                 ("m2", Examples.msg "+919876543210" "2025-01-15T10:00:00Z"
                          (Some "Second message"))];
              Main.total := 2; Main.limit := 50; Main.offset := 0 |}
           eq_refl).
Defined.

End get_messages_properties.

(** ** GET /messages: parameters *)
Section get_messages_parameters.
Import Storage.

(** A q whose LIKE pattern is within the limit does not make the
    statements raise. *)
Lemma execute_raises_fits (from since q : option string) (conn : Table) :
  (∀ v, q = Some v →
        Sqlite.like_pattern_fits ("%" +:+ Py.lower v +:+ "%") = true) →
  execute_raises from since q conn = false.
Proof.
  intros Hfit. unfold execute_raises.
  destruct q as [[|c v]|]; [done| |done].
  cbn [Py.truthy default from_option id andb].
  by rewrite (Hfit (String c v) eq_refl).
Qed.

(** A q whose pattern is beyond the limit makes the request fail with an
    exception that nothing catches, as soon as one stored row passes the
    from and since clauses. *)
Lemma get_messages_pattern_too_complex (limit offset : option Z)
    (from since : option string) (q : string) (conn : Table) (r : Row) :
  (1 ≤ default 50 limit ≤ 100)%Z → (0 ≤ default 0 offset)%Z →
  q ≠ EmptyString →
  Sqlite.like_pattern_fits ("%" +:+ Py.lower q +:+ "%") = false →
  r ∈ select_where (Main.from_filter from) since None conn →
  Main.get_messages limit offset from since (Some q) conn
  = Main.Uncaught "OperationalError".
Proof.
  intros Hlim Hoff Hq Hfit Hr. unfold Main.get_messages.
  destruct (Z.ltb_spec (default 50%Z limit) 1); [lia|].
  destruct (Z.gtb_spec (default 50%Z limit) 100); [lia|].
  destruct (Z.ltb_spec (default 0%Z offset) 0); [lia|].
  unfold execute_raises. destruct q as [|c q]; [done|].
  cbn [Py.truthy default from_option id andb]. rewrite Hfit.
  destruct (select_where _ _ _ _); [by apply elem_of_nil in Hr|done].
Qed.

(** So it is with a q of 49999 letters on the table of the example; on
    the empty table no row reaches LIKE, and the request returns. *)
Lemma get_messages_q_too_long :
  Main.get_messages None None None None (Some Examples.long_q)
    Examples.hello_world
  = Main.Uncaught "OperationalError"
  ∧ Main.get_messages None None None None (Some Examples.long_q) ∅
    = Main.Return {| Main.data := []; Main.total := 0;
                     Main.limit := 50; Main.offset := 0 |}.
Proof. split; by vm_compute. Qed.

(** C8: limit defaults to 50 and offset to 0; the request fails with 422
    exactly when limit < 1, limit > 100 or offset < 0; when it succeeds
    the envelope echoes the limit and the offset used, and it succeeds
    for every limit and offset in range, the offset being one that SQLite
    can take as an INTEGER and q one whose LIKE pattern is within the
    50000 bytes that SQLite admits. *)
Theorem get_messages_limit_offset (limit offset : option Z)
    (from since q : option string) (conn : Table) :
  let lim := match limit with Some l => l | None => 50%Z end in
  let off := match offset with Some o => o | None => 0%Z end in
  ((∃ detail, Main.get_messages limit offset from since q conn
              = Main.HTTPException 422 detail)
   ↔ (lim < 1 ∨ lim > 100 ∨ off < 0)%Z)
  ∧ (∀ env, Main.get_messages limit offset from since q conn = Main.Return env →
            Main.limit env = lim ∧ Main.offset env = off)
  ∧ ((1 ≤ lim ≤ 100 ∧ 0 ≤ off < 2 ^ 63)%Z →
     (∀ v, q = Some v →
           Sqlite.like_pattern_fits ("%" +:+ Py.lower v +:+ "%") = true) →
     ∃ env, Main.get_messages limit offset from since q conn = Main.Return env).
Proof.
  intros lim off.
  assert (lim = default 50%Z limit) as Hlim by (by destruct limit).
  assert (off = default 0%Z offset) as Hoff by (by destruct offset).
  split; [|split].
  - unfold Main.get_messages. rewrite <- Hlim, <- Hoff.
    destruct (Z.ltb_spec lim 1); [split; [lia|eauto]|].
    destruct (Z.gtb_spec lim 100); [split; [lia|eauto]|].
    destruct (Z.ltb_spec off 0); [split; [lia|eauto]|].
    split; [|lia]. intros [detail Hd].
    destruct (execute_raises _ _ _ _); [done|].
    by destruct (fetch_messages _ _ _ _ _ _).
  - intros env (_ & _ & ->)%get_messages_Return. by rewrite Hlim, Hoff.
  - intros [Hl Ho] Hfit.
    unfold Main.get_messages, fetch_messages, Sqlite.fits_int64.
    rewrite <- Hlim, <- Hoff.
    destruct (Z.ltb_spec lim 1); [lia|].
    destruct (Z.gtb_spec lim 100); [lia|].
    destruct (Z.ltb_spec off 0); [lia|].
    rewrite (execute_raises_fits _ _ _ _ Hfit).
    destruct (Z.leb_spec (- 2 ^ 63) lim); [|lia].
    destruct (Z.leb_spec lim (2 ^ 63 - 1)); [|lia].
    destruct (Z.leb_spec (- 2 ^ 63) off); [|lia].
    destruct (Z.leb_spec off (2 ^ 63 - 1)); [|lia].
    by eexists.
Qed.

Lemma get_messages_limit_offset_witness :
  ∃ env, Main.get_messages None None None None (Some "hello") Examples.same_ts
         = Main.Return env.
Proof.
  apply (get_messages_limit_offset None None None None (Some "hello")
           Examples.same_ts).
  - lia.
  - by intros v [= <-].
Defined.

(** The total of the envelope is the number of stored rows that pass the
    WHERE clauses of the code; it is the same for every limit and offset;
    the page holds min(limit, total - offset) rows, hence all of them when
    offset = 0 and limit is at least total. *)
Lemma get_messages_total (limit offset : option Z)
    (from since q : option string) (conn : Table) (env : Main.Envelope) :
  Main.get_messages limit offset from since q conn = Main.Return env →
  Main.total env
  = length (filter (λ r, where_sql
                           (_build_filters (Main.from_filter from) since q) r
                         = true)
                   (map_to_list conn))
  ∧ (∀ (limit' offset' : option Z) (env' : Main.Envelope),
       Main.get_messages limit' offset' from since q conn = Main.Return env' →
       Main.total env' = Main.total env)
  ∧ length (Main.data env)
    = (Z.to_nat (Main.limit env)
       `min` (Main.total env - Z.to_nat (Main.offset env)))%nat
  ∧ (Main.offset env = 0%Z → (Z.of_nat (Main.total env) ≤ Main.limit env)%Z →
     length (Main.data env) = Main.total env).
Proof.
  intros (Hlim & Hoff & ->)%get_messages_Return. simpl.
  assert (length (fetch_rows (Main.from_filter from) since q
                    (default 50%Z limit) (default 0%Z offset) conn)
          = (Z.to_nat (default 50%Z limit)
             `min` (count_messages (Main.from_filter from) since q conn
                    - Z.to_nat (default 0%Z offset)))%nat) as Hlen.
  { apply fetch_rows_length. lia. }
  split; [done|]. split.
  { by intros limit' offset' env' (_ & _ & ->)%get_messages_Return. }
  split; [done|]. intros Hoff0 Htot. lia.
Qed.

Lemma get_messages_total_same_ts :
  ∃ env, Main.get_messages None None None None (Some "WORLD") Examples.same_ts
         = Main.Return env
         ∧ Main.total env = 1%nat
         ∧ length (Main.data env) = Main.total env.
Proof.
  eexists. split; [reflexivity|]. split; [reflexivity|].
  refine (proj2 (proj2 (proj2
    (get_messages_total None None None None (Some "WORLD")
       Examples.same_ts _ eq_refl))) eq_refl _).
  vm_compute. discriminate.
Qed.

(** C9: the total is the count of the rows that the WHERE clauses select,
    and the clause for q hands q to LIKE as it comes: with q = % the total
    is 1 on the table whose one message does not hold that character,
    while the number of stored records that satisfy the filter, q being a
    case-insensitive substring of the text, is 0. *)
Theorem get_messages_total_q_wildcard :
  Main.get_messages None None None None (Some "%") Examples.hello_world
  = Main.Return
      {| Main.data :=
           [("m1", Examples.msg "+919876543210" "2025-01-15T10:00:00Z"
                     (Some "Hello world"))];
         Main.total := 1; Main.limit := 50; Main.offset := 0 |}
  ∧ length (filter (λ r, Spec.satisfies None None (Some "%") r = true)
              (rows_of Examples.hello_world))
    = 0%nat.
Proof. split; reflexivity. Qed.

End get_messages_parameters.

(** ** GET /messages: the filters *)
Section get_messages_filters.
Import Storage.

Lemma lstrip_whitespace_only (ws : string) :
  Spec.whitespace_only ws = true → Py.lstrip ws = EmptyString.
Proof.
  induction ws as [|c ws IH]; simpl; [done|].
  intros [Hc Hws]%andb_prop. rewrite Hc. by apply IH.
Qed.

Lemma strip_whitespace_only (ws : string) :
  Spec.whitespace_only ws = true → Py.strip ws = EmptyString.
Proof.
  intros H. unfold Py.strip. by rewrite (lstrip_whitespace_only ws H).
Qed.

Lemma from_filter_whitespace_only (ws : string) :
  Spec.whitespace_only ws = true →
  Main.from_filter (Some ws) = Some EmptyString.
Proof.
  intros H. unfold Main.from_filter.
  destruct ws as [|c ws]; simpl; [done|].
  by rewrite (strip_whitespace_only (String c ws) H).
Qed.

(** C10: a from, since or q that is the empty string, or a from made of
    whitespace only, gives the reply of the request without that
    parameter: the filter is not applied and no error is raised. *)
Theorem get_messages_empty_is_absent (limit offset : option Z)
    (from since q : option string) (conn : Table) :
  (∀ ws, Spec.whitespace_only ws = true →
         Main.get_messages limit offset (Some ws) since q conn
         = Main.get_messages limit offset None since q conn)
  ∧ Main.get_messages limit offset from (Some EmptyString) q conn
    = Main.get_messages limit offset from None q conn
  ∧ Main.get_messages limit offset from since (Some EmptyString) conn
    = Main.get_messages limit offset from since None conn.
Proof.
  split; [|split; reflexivity].
  intros ws Hws. unfold Main.get_messages.
  rewrite (from_filter_whitespace_only ws Hws). reflexivity.
Qed.

Lemma get_messages_empty_is_absent_witness :
  Main.get_messages None None (Some "   ") None None Examples.two_senders
  = Main.get_messages None None None None None Examples.two_senders.
Proof.
  exact (proj1 (get_messages_empty_is_absent None None None None None
                  Examples.two_senders) "   " eq_refl).
Defined.

(** C7, as the code has it: the from value is stripped of the whitespace
    around it; a plus sign is prepended when the stripped value starts
    with a digit (and so not with a plus sign); otherwise the stripped
    value is the one used for filtering.  An absent from stays absent. *)
Theorem from_filter_strips_then_restores_plus (v : string) :
  Main.from_filter (Some v) = Some (Spec.from_as_worded (Py.strip v))
  ∧ Main.from_filter None = None.
Proof.
  split; [|done]. unfold Main.from_filter, Spec.from_as_worded.
  destruct v as [|c v]; [done|].
  cbn [Py.truthy default from_option id].
  destruct (Py.strip (String c v)) as [|d s]; [done|].
  rewrite andb_comm. by destruct (_ && _).
Qed.

(** C7, as worded, fails on a value with a blank before the digits (what
    an unescaped plus sign decodes to): the code filters on the number
    with its plus sign restored, the wording leaves the value as it is. *)
Lemma from_filter_not_as_worded :
  Main.from_filter (Some " 919876543210") = Some "+919876543210"
  ∧ Spec.from_as_worded " 919876543210" = " 919876543210"
  ∧ Main.from_filter (Some " 919876543210")
    ≠ Some (Spec.from_as_worded " 919876543210").
Proof. repeat split; done. Qed.

End get_messages_filters.

(** ** The WHERE clauses *)
Section where_clauses.
Import Storage.

(** What [_build_filters] selects: a stored row passes when it has the
    sender asked for, a ts not below since, and a text that the LIKE
    pattern made from q matches; an absent or empty parameter adds no
    condition. *)
Lemma elem_of_select_where_clauses (f s q : option string) (conn : Table)
    (r : Row) :
  r ∈ select_where f s q conn
  ↔ conn !! message_id r = Some r.2
    ∧ (∀ v, f = Some v → v ≠ EmptyString → row_from r = v)
    ∧ (∀ v, s = Some v → v ≠ EmptyString → String.leb v (row_ts r) = true)
    ∧ (∀ v, q = Some v → v ≠ EmptyString →
         Sqlite.like ("%" +:+ Py.lower v +:+ "%")
           (Sqlite.LOWER (default EmptyString (row_text r))) = true).
Proof.
  rewrite elem_of_select_where. unfold where_sql, _build_filters.
  rewrite !forallb_app, !andb_true_iff.
  assert (∀ (o : option string) (c : Row → bool),
    forallb (λ c, c r) (if Py.truthy o then [c] else []) = true
    ↔ (∀ v, o = Some v → v ≠ EmptyString → c r = true)) as Hclause.
  { intros [[|a v]|] c; simpl.
    - split; [intros _ v [= <-]; done|done].
    - rewrite andb_true_r. split; [by intros H v' [= <-] _|].
      intros H. by apply (H (String a v)).
    - split; [by intros _ v|done]. }
  rewrite !Hclause. unfold Sqlite.text_leb, Sqlite.COALESCE.
  split.
  - intros (Hin & Hf & Hs & Hq). repeat split; [done|..].
    + intros v -> Hv. by apply String.eqb_eq, (Hf v).
    + intros v -> Hv. by apply (Hs v).
    + intros v -> Hv. by apply (Hq v).
  - intros (Hin & Hf & Hs & Hq). repeat split; [done|..].
    + intros v -> Hv. by apply String.eqb_eq, Hf.
    + intros v -> Hv. by apply Hs.
    + intros v -> Hv. by apply Hq.
Qed.

(** *** LIKE on a pattern without wildcards *)

Lemma code_ascii_of_nat (n : nat) : (n < 256)%nat → Py.code (ascii_of_nat n) = n.
Proof. apply nat_ascii_embedding. Qed.

Lemma lower_char_ascii7 (c : ascii) :
  Spec.is_ascii7 c = true → Py.lower_char c = Sqlite.tolower c.
Proof.
  unfold Spec.is_ascii7, Py.lower_char, Sqlite.tolower. intros H%Nat.ltb_lt.
  assert (Py.between 192 222 (Py.code c) = false) as ->; [|by rewrite orb_false_r].
  unfold Py.between. apply andb_false_iff. left. apply Nat.leb_gt. lia.
Qed.

Lemma lower_ascii7 (s : string) :
  Spec.all_chars Spec.is_ascii7 s = true → Py.lower s = Sqlite.LOWER s.
Proof.
  induction s as [|c s IH]; simpl; [done|].
  intros [Hc Hs]%andb_prop. by rewrite lower_char_ascii7, IH.
Qed.

Lemma tolower_cases (c : ascii) :
  Sqlite.tolower c = c
  ∨ (97 ≤ Py.code (Sqlite.tolower c) ≤ 122)%nat.
Proof.
  unfold Sqlite.tolower.
  destruct (Py.between 65 90 (Py.code c)) eqn:E; [|by left].
  right. apply between_spec in E. rewrite code_ascii_of_nat; lia.
Qed.

Lemma tolower_idemp (c : ascii) :
  Sqlite.tolower (Sqlite.tolower c) = Sqlite.tolower c.
Proof.
  destruct (tolower_cases c) as [Heq|H]; [by rewrite !Heq|].
  unfold Sqlite.tolower at 1.
  assert (Py.between 65 90 (Py.code (Sqlite.tolower c)) = false) as ->; [|done].
  unfold Py.between. apply andb_false_iff. right. apply Nat.leb_gt. lia.
Qed.

Lemma tolower_not_wildcard (c : ascii) :
  Spec.is_wildcard c = false → Spec.is_wildcard (Sqlite.tolower c) = false.
Proof.
  intros Hc. destruct (tolower_cases c) as [Heq|H]; [by rewrite Heq|].
  unfold Spec.is_wildcard. apply orb_false_iff.
  split; apply Ascii.eqb_neq; intros Heq; rewrite Heq in H;
    vm_compute in H; lia.
Qed.

Lemma LOWER_folded (s : string) : Spec.all_chars Spec.folded (Sqlite.LOWER s) = true.
Proof.
  induction s as [|c s IH]; simpl; [done|]. rewrite IH, andb_true_r.
  unfold Spec.folded. rewrite tolower_idemp. apply Ascii.eqb_refl.
Qed.

Lemma LOWER_literal (s : string) :
  Spec.all_chars (λ c, negb (Spec.is_wildcard c)) s = true →
  Spec.all_chars Spec.literal (Sqlite.LOWER s) = true.
Proof.
  induction s as [|c s IH]; simpl; [done|].
  intros [Hc Hs]%andb_prop. rewrite (IH Hs), andb_true_r.
  unfold Spec.literal, Spec.folded. apply negb_true_iff in Hc.
  rewrite (tolower_not_wildcard c Hc), tolower_idemp. simpl.
  apply Ascii.eqb_refl.
Qed.

Lemma like_percent_any (x : string) : Sqlite.patternCompare "%" x = true.
Proof. induction x as [|c x IH]; [done|]. exact IH. Qed.

Lemma like_percent_cons (pat : string) (c : ascii) (x : string) :
  Sqlite.patternCompare (String "%" pat) (String c x)
  = Sqlite.patternCompare pat (String c x)
    || Sqlite.patternCompare (String "%" pat) x.
Proof. reflexivity. Qed.

(** A pattern of literal characters closed by [%] matches the folded
    texts it is a prefix of. *)
Lemma like_literal_prefix (p y : string) :
  Spec.all_chars Spec.literal p = true → Spec.all_chars Spec.folded y = true →
  Sqlite.patternCompare (p +:+ "%") y = String.prefix p y.
Proof.
  revert y. induction p as [|c p IH]; intros y Hp Hy.
  - rewrite like_percent_any. by destruct y.
  - change (String c p +:+ "%") with (String c (p +:+ "%")).
    cbn [Spec.all_chars] in Hp. apply andb_prop in Hp as [Hc Hp].
    unfold Spec.literal, Spec.folded in Hc. apply andb_prop in Hc as [Hw Hc].
    apply negb_true_iff, orb_false_iff in Hw as [Hw1 Hw2].
    apply Ascii.eqb_eq in Hc.
    cbn [Sqlite.patternCompare]. rewrite Hw1. destruct y as [|d y]; [done|].
    cbn [Spec.all_chars] in Hy. apply andb_prop in Hy as [Hd Hy].
    apply Ascii.eqb_eq in Hd. rewrite Hw2, Hc, Hd. cbn [orb String.prefix].
    rewrite (IH y Hp Hy).
    destruct (ascii_dec c d) as [->|Hne].
    + by rewrite Ascii.eqb_refl.
    + by apply Ascii.eqb_neq in Hne as ->.
Qed.

(** Between two [%], such a pattern matches the folded texts that
    contain it. *)
Lemma like_literal_substring (p x : string) :
  Spec.all_chars Spec.literal p = true → Spec.all_chars Spec.folded x = true →
  Sqlite.patternCompare ("%" +:+ p +:+ "%") x = Spec.is_substring p x.
Proof.
  intros Hp. change ("%" +:+ p +:+ "%") with (String "%" (p +:+ "%")).
  induction x as [|d x IH]; intros Hx.
  - change (Sqlite.patternCompare (String "%" (p +:+ "%")) EmptyString)
      with (Sqlite.patternCompare (p +:+ "%") EmptyString || false).
    by rewrite like_literal_prefix.
  - rewrite like_percent_cons, like_literal_prefix by done.
    cbn [Spec.all_chars] in Hx. apply andb_prop in Hx as [_ Hx].
    by rewrite (IH Hx).
Qed.

(** A text without U+0000 is read to its end. *)
Lemma c_str_not_nul (s : string) :
  Spec.all_chars Spec.not_nul s = true → Sqlite.c_str s = s.
Proof.
  induction s as [|c s IH]; [done|]. cbn [Spec.all_chars Sqlite.c_str].
  intros [Hc Hs]%andb_prop. unfold Spec.not_nul in Hc.
  apply negb_true_iff in Hc. by rewrite Hc, (IH Hs).
Qed.

Lemma all_chars_app (P : ascii → bool) (a b : string) :
  Spec.all_chars P (a +:+ b) = Spec.all_chars P a && Spec.all_chars P b.
Proof.
  induction a as [|c a IH]; [done|].
  change (String c a +:+ b) with (String c (a +:+ b)).
  cbn [Spec.all_chars]. by rewrite IH, andb_assoc.
Qed.

Lemma tolower_not_nul (c : ascii) :
  Spec.not_nul c = true → Spec.not_nul (Sqlite.tolower c) = true.
Proof.
  intros Hc. destruct (tolower_cases c) as [Heq|H]; [by rewrite Heq|].
  unfold Spec.not_nul. apply negb_true_iff, Ascii.eqb_neq.
  intros Heq. rewrite Heq in H. vm_compute in H. lia.
Qed.

Lemma LOWER_not_nul (s : string) :
  Spec.all_chars Spec.not_nul s = true →
  Spec.all_chars Spec.not_nul (Sqlite.LOWER s) = true.
Proof.
  induction s as [|c s IH]; [done|]. cbn [Spec.all_chars Sqlite.LOWER].
  intros [Hc Hs]%andb_prop. by rewrite (tolower_not_nul c Hc), (IH Hs).
Qed.

(** X22: on ASCII texts that hold no U+0000 and for a q without [%] and
    [_] whose pattern is within the limit of LIKE, the clause built for q
    is the case-insensitive substring test. *)
Lemma like_clause_is_substring (q x : string) :
  Spec.all_chars Spec.is_ascii7 q = true →
  Spec.all_chars Spec.not_nul q = true →
  Spec.all_chars (λ c, negb (Spec.is_wildcard c)) q = true →
  Sqlite.like_pattern_fits ("%" +:+ Py.lower q +:+ "%") = true →
  Spec.all_chars Spec.is_ascii7 x = true →
  Spec.all_chars Spec.not_nul x = true →
  Sqlite.like ("%" +:+ Py.lower q +:+ "%") (Sqlite.LOWER x)
  = Spec.contains_nocase q x.
Proof.
  intros Hq Hq0 Hw _ Hx Hx0. unfold Spec.contains_nocase, Sqlite.like.
  rewrite (lower_ascii7 q Hq), (lower_ascii7 x Hx).
  rewrite (c_str_not_nul (Sqlite.LOWER x)) by by apply LOWER_not_nul.
  rewrite (c_str_not_nul ("%" +:+ Sqlite.LOWER q +:+ "%")).
  - apply like_literal_substring; [by apply LOWER_literal|apply LOWER_folded].
  - change ("%" +:+ Sqlite.LOWER q +:+ "%")
      with (String "%" (Sqlite.LOWER q +:+ "%")).
    cbn [Spec.all_chars]. rewrite all_chars_app, (LOWER_not_nul q Hq0). done.
Qed.

(** C6: the q filter is handed to LIKE as it comes, so a q made of the
    wildcard [%] selects the stored message although its text does not
    contain that character. *)
Theorem get_messages_q_wildcard :
  Main.get_messages None None None None (Some "%") Examples.hello_world
  = Main.Return
      {| Main.data :=
           [("m1", Examples.msg "+919876543210" "2025-01-15T10:00:00Z"
                     (Some "Hello world"))];
         Main.total := 1; Main.limit := 50; Main.offset := 0 |}
  ∧ Spec.contains_nocase "%" "Hello world" = false.
Proof. split; reflexivity. Qed.

(** LIKE reads the text and the pattern up to their first U+0000: the
    text made of a, U+0000 and b is not found by q = b, and it is found,
    as every text is, by the q made of U+0000. *)
Lemma get_messages_q_nul :
  Main.get_messages None None None None (Some "b") Examples.nul_text
  = Main.Return {| Main.data := []; Main.total := 0;
                   Main.limit := 50; Main.offset := 0 |}
  ∧ Main.get_messages None None None None (Some Examples.NUL)
      Examples.nul_text
    = Main.Return
        {| Main.data :=
             [("m1", Examples.msg "+919876543210" "2025-01-15T10:00:00Z"
                       (Some ("a" +:+ Examples.NUL +:+ "b")))];
           Main.total := 1; Main.limit := 50; Main.offset := 0 |}
  ∧ Spec.contains_nocase "b" ("a" +:+ Examples.NUL +:+ "b") = true.
Proof. repeat split; reflexivity. Qed.

(** The two sides fold case differently: [q.lower()] folds the capitals
    beyond A..Z, [LOWER] and [LIKE] do not, so a text is not found by a q
    that is the text itself. *)
Lemma get_messages_q_capital_beyond_ascii :
  Main.get_messages None None None None (Some Examples.E_acute)
    Examples.accented
  = Main.Return {| Main.data := []; Main.total := 0;
                   Main.limit := 50; Main.offset := 0 |}
  ∧ Spec.contains_nocase Examples.E_acute Examples.E_acute = true.
Proof. split; reflexivity. Qed.

End where_clauses.

(** ** GET /stats *)
Section stats_properties.
Import Storage.

(** Every result of the top-senders query holds at most ten rows, ranked
    by count descending, each a sender of the table with its count. *)
Lemma top_senders_ranked (conn : Table) (rows : list (string * nat)) :
  top_senders conn rows →
  (length rows ≤ 10)%nat ∧ Spec.ranked_by_count rows
  ∧ ∀ x, x ∈ rows → x ∈ group_by_from_msisdn conn.
Proof.
  intros (sorted & [Hperm Hsorted] & ->).
  change (Sqlite.limit_offset 10 0 sorted) with (take 10 sorted).
  split; [rewrite length_take; lia|]. split.
  - intros i j a b Hi Hj Hlt.
    assert (Transitive cnt_desc) as Htrans.
    { intros x y z. unfold cnt_desc. lia. }
    apply (StronglySorted_lookup cnt_desc (take 10 sorted) i j a b); [|done..].
    eapply StronglySorted_sublist; [apply sublist_take|].
    by apply Sorted_StronglySorted.
  - intros x Hx. rewrite <- Hperm.
    eapply elem_of_sublist; [exact Hx|apply sublist_take].
Qed.

(** C3: the ranking has no key after the count, so on a table with two
    senders of one message each the query admits the result that lists
    the greater from_msisdn first. *)
Theorem get_stats_ties_not_ordered :
  ∃ st : Stats,
    get_stats Examples.two_senders st
    ∧ messages_per_sender st = [("+922222222222", 1%nat); ("+911111111111", 1%nat)]
    ∧ Spec.ranked_by_count (messages_per_sender st)
    ∧ ¬ Spec.ties_ascending (messages_per_sender st).
Proof.
  exists {| total_messages := 2; senders_count := 2;
            messages_per_sender :=
              [("+922222222222", 1%nat); ("+911111111111", 1%nat)];
            first_message_ts := Some "2025-01-15T10:00:00Z";
            last_message_ts := Some "2025-01-15T10:01:00Z" |}.
  assert (top_senders Examples.two_senders
            [("+922222222222", 1%nat); ("+911111111111", 1%nat)]) as Htop.
  { exists [("+922222222222", 1%nat); ("+911111111111", 1%nat)].
    split; [|done]. split.
    - change (group_by_from_msisdn Examples.two_senders)
        with [("+911111111111", 1%nat); ("+922222222222", 1%nat)].
      apply Permutation_swap.
    - repeat constructor. }
  split; [|split; [done|split]].
  - repeat split; try reflexivity. exact Htop.
  - by apply top_senders_ranked in Htop as (_ & ? & _).
  - intros H. specialize (H 0%nat 1%nat _ _ eq_refl eq_refl). simpl in H.
    by specialize (H ltac:(lia) eq_refl).
Qed.

(** The same table admits the two orders of its senders. *)
Lemma top_senders_two_results :
  top_senders Examples.two_senders
    [("+911111111111", 1%nat); ("+922222222222", 1%nat)]
  ∧ top_senders Examples.two_senders
      [("+922222222222", 1%nat); ("+911111111111", 1%nat)].
Proof.
  split.
  - exists [("+911111111111", 1%nat); ("+922222222222", 1%nat)].
    split; [|done]. split; [done|repeat constructor].
  - exists [("+922222222222", 1%nat); ("+911111111111", 1%nat)].
    split; [|done]. split; [|repeat constructor].
    change (group_by_from_msisdn Examples.two_senders)
      with [("+911111111111", 1%nat); ("+922222222222", 1%nat)].
    apply Permutation_swap.
Qed.

End stats_properties.

(** ** insert_message *)
Section insert_properties.
Import Storage.

Lemma encode_wide (s : string) : Py.encode (Py.wide s) = Some s.
Proof. induction s as [|c s IH]; [done|]. simpl. by rewrite IH. Qed.

(** The texts that can be encoded are those without a surrogate. *)
Lemma encode_Some (t : Py.text) (s : string) :
  Py.encode t = Some s ↔ t = Py.wide s.
Proof.
  split; [|intros ->; apply encode_wide].
  revert s. induction t as [|[c|k] t IH]; intros s; simpl.
  - by intros [= <-].
  - intros (s' & Hs' & ->)%fmap_Some. simpl. by rewrite (IH s' Hs').
  - done.
Qed.

Lemma bind_optional_Some (x : option Py.text) (y : option string) :
  bind_optional x = Some y ↔ x = Py.wide <$> y.
Proof.
  destruct x as [t|], y as [s|]; simpl.
  - rewrite fmap_Some. split.
    + intros (s' & Hs' & [= ->]). by apply encode_Some in Hs' as ->.
    + intros [= ->]. exists s. by rewrite encode_wide.
  - split; [|done]. by intros (s' & _ & ?)%fmap_Some.
  - done.
  - done.
Qed.

(** With every parameter bound, the call is the conditional insert. *)
Lemma insert_message_bound (now mid f t s : string) (txt : option string)
    (conn : Table) :
  insert_message now (Py.wide mid) (Py.wide f) (Py.wide t) (Py.wide s)
    (Py.wide <$> txt) conn
  = Some match conn !! mid with
         | None =>
             ((true, false),
              <[mid := {| from_msisdn := f; to_msisdn := t; ts := s;
                          text := txt; created_at := now |}]> conn)
         | Some _ => ((false, true), conn)
         end.
Proof.
  unfold insert_message. rewrite !encode_wide. cbn [mbind option_bind].
  rewrite (proj2 (bind_optional_Some (Py.wide <$> txt) txt) eq_refl).
  cbn [mbind option_bind]. by destruct (conn !! mid).
Qed.

(** The call returns exactly when every parameter can be bound. *)
Lemma insert_message_Some (now : string) (mid f t s : Py.text)
    (txt : option Py.text) (conn : Table) (r : (bool * bool) * Table) :
  insert_message now mid f t s txt conn = Some r →
  ∃ mid' f' t' s' txt',
    mid = Py.wide mid' ∧ f = Py.wide f' ∧ t = Py.wide t' ∧ s = Py.wide s'
    ∧ txt = Py.wide <$> txt'.
Proof.
  unfold insert_message. intros H.
  destruct (Py.encode mid) as [mid'|] eqn:Hmid; [|done].
  destruct (Py.encode f) as [f'|] eqn:Hf; [|done].
  destruct (Py.encode t) as [t'|] eqn:Ht; [|done].
  destruct (Py.encode s) as [s'|] eqn:Hs; [|done].
  destruct (bind_optional txt) as [txt'|] eqn:Htxt; [|done].
  exists mid', f', t', s', txt'.
  apply encode_Some in Hmid, Hf, Ht, Hs. by apply bind_optional_Some in Htxt.
Qed.



(** X1: after a call that returned, a second call under the same
    message_id, whatever its other fields and the clock, raises
    [UnicodeEncodeError] when one of its strings holds a lone surrogate,
    and otherwise reports a duplicate and leaves the table as the first
    call made it. *)
Lemma insert_message_twice (now now' : string) (mid f t s : Py.text)
    (txt : option Py.text) (f' t' s' : Py.text) (txt' : option Py.text)
    (conn conn1 : Table) (r : bool * bool) :
  insert_message now mid f t s txt conn = Some (r, conn1) →
  insert_message now' mid f' t' s' txt' conn1
  = match Py.encode f', Py.encode t', Py.encode s', bind_optional txt' with
    | Some _, Some _, Some _, Some _ => Some ((false, true), conn1)
    | _, _, _, _ => None
    end.
Proof.
  intros H.
  pose proof (insert_message_Some _ _ _ _ _ _ _ _ H)
    as (mid' & f0 & t0 & s0 & txt0 & -> & -> & -> & -> & ->).
  rewrite insert_message_bound in H.
  assert (is_Some (conn1 !! mid')) as [old Hold].
  { destruct (conn !! mid') eqn:E; simplify_eq; [by rewrite E|].
    by rewrite lookup_insert_eq. }
  unfold insert_message. rewrite encode_wide. cbn [mbind option_bind].
  destruct (Py.encode f'); [|done]. destruct (Py.encode t'); [|done].
  destruct (Py.encode s'); [|done]. destruct (bind_optional txt'); [|done].
  cbn [mbind option_bind]. by rewrite Hold.
Qed.

End insert_properties.

Lemma insert_message_twice_witness :
  Storage.insert_message "2025-01-15T10:07:00Z" (Py.wide "m1")
    (Py.wide "+922222222222") (Py.wide "+14155550100")
    (Py.wide "2025-01-16T08:00:00Z") (Some (Py.wide "Another text"))
    Examples.hello_world
  = Some ((false, true), Examples.hello_world).
Proof.
  exact (insert_message_twice "2025-01-15T10:05:00Z" "2025-01-15T10:07:00Z"
           (Py.wide "m1") (Py.wide "+919876543210") (Py.wide "+14155550100")
           (Py.wide "2025-01-15T10:00:00Z") (Some (Py.wide "Hello world"))
           (Py.wide "+922222222222") (Py.wide "+14155550100")
           (Py.wide "2025-01-16T08:00:00Z") (Some (Py.wide "Another text"))
           ∅ Examples.hello_world (true, false) eq_refl).
Defined.

(** The same second call with a lone surrogate in its ts raises, on the
    taken key as on a free one. *)
Lemma insert_message_surrogate :
  Storage.insert_message "2025-01-15T10:07:00Z" (Py.wide "m1")
    (Py.wide "+922222222222") (Py.wide "+14155550100")
    Examples.surrogate_ts None Examples.hello_world
  = None
  ∧ Storage.insert_message "2025-01-15T10:07:00Z" (Py.wide "m1")
      (Py.wide "+922222222222") (Py.wide "+14155550100")
      Examples.surrogate_ts None ∅
    = None.
Proof. split; reflexivity. Qed.

(** ** The phone-number pattern *)
Section e164_pattern.

Lemma wide_app (a b : string) :
  Py.wide (a +:+ b) = (Py.wide a ++ Py.wide b)%list.
Proof.
  induction a as [|c a IH]; [done|].
  change (String c a +:+ b) with (String c (a +:+ b)). simpl. by rewrite IH.
Qed.

Lemma at_dollar_spec (s : Py.text) :
  Re.at_dollar s = true ↔ s = [] ∨ s = Py.wide Re.LF.
Proof.
  destruct s as [|[c|k] [|d s]]; simpl.
  - by split; [left|].
  - split.
    + intros ->%Ascii.eqb_eq. by right.
    + intros [?|[= ->]]; [done|]. apply Ascii.eqb_refl.
  - split; [done|]. by intros [?|?].
  - split; [done|]. by intros [?|?].
  - split; [done|]. by intros [?|?].
Qed.

(** [\d{lo,hi}$]: between [lo] and [hi] digits, then the end of the
    string or one final line feed. *)
Lemma digits_dollar_spec (lo hi : nat) (s : Py.text) :
  Re.digits_dollar lo hi s = true
  ↔ ∃ ds tail, s = (Py.wide ds ++ tail)%list
               ∧ Spec.all_ascii_digits ds = true
               ∧ (lo ≤ String.length ds ≤ hi)%nat
               ∧ (tail = [] ∨ tail = Py.wide Re.LF).
Proof.
  revert lo s. induction hi as [|hi IH]; intros lo s.
  - simpl. rewrite orb_false_r. split.
    + destruct lo; [|done]. intros H%at_dollar_spec.
      exists EmptyString, s. repeat split; simpl; [lia..|done].
    + intros (ds & tail & -> & _ & Hlen & Htail).
      destruct ds; simpl in Hlen; [|lia]. destruct lo; [|lia].
      by apply at_dollar_spec.
  - cbn [Re.digits_dollar]. rewrite orb_true_iff. split.
    + intros [H|H].
      * destruct lo; [|done]. apply at_dollar_spec in H.
        exists EmptyString, s. repeat split; simpl; [lia..|done].
      * destruct s as [|[c|k] s]; [done| |done].
        apply andb_prop in H as [Hc (ds & tail & -> & Hds & Hlen & Htail)%IH].
        exists (String c ds), tail. split; [done|].
        split; [cbn [Spec.all_ascii_digits]; by rewrite Hc, Hds|].
        split; [simpl; lia|done].
    + intros (ds & tail & -> & Hds & Hlen & Htail).
      destruct ds as [|c ds].
      * left. simpl in Hlen. destruct lo; [|lia]. by apply at_dollar_spec.
      * right. cbn [Spec.all_ascii_digits] in Hds. simpl in Hlen.
        apply andb_prop in Hds as [Hc Hds].
        change (Py.is_ascii_digit c
                && Re.digits_dollar (Nat.pred lo) hi (Py.wide ds ++ tail)
                = true).
        rewrite Hc. simpl. apply IH. exists ds, tail.
        repeat split; [done|lia..|done].
Qed.

Lemma append_empty_r (s : string) : s +:+ EmptyString = s.
Proof.
  induction s as [|c s IH]; [done|].
  change (String c s +:+ EmptyString) with (String c (s +:+ EmptyString)).
  by rewrite IH.
Qed.

(** X19: among the texts of the model, those made of characters below
    U+0100 and of surrogates, [E164_REGEX] accepts under [re.match] the
    E.164 numbers and the E.164 numbers followed by one line feed, and no
    text that holds a surrogate.  (Beyond the model, [\d] also takes the
    decimal digits of other scripts.) *)
Lemma E164_REGEX_match_spec (s : Py.text) :
  Re.E164_REGEX_match s = true
  ↔ ∃ number, Spec.is_e164 number = true
              ∧ (s = Py.wide number ∨ s = Py.wide (number +:+ Re.LF)).
Proof.
  split.
  - destruct s as [|[p|k] [|[d|k'] rest]]; cbn [Re.E164_REGEX_match];
      try done.
    intros [[Hp Hd]%andb_prop Hrest]%andb_prop.
    apply digits_dollar_spec in Hrest
      as (ds & tail & -> & Hds & Hlen%between_spec & Htail).
    exists (String p (String d ds)). split.
    + cbn [Spec.is_e164]. by rewrite Hp, Hd, Hds, Hlen.
    + destruct Htail as [-> | ->].
      * left. by rewrite app_nil_r.
      * right. change (String p (String d ds) +:+ Re.LF)
          with (String p (String d (ds +:+ Re.LF))).
        simpl. by rewrite wide_app.
  - intros (number & H & Hs).
    destruct number as [|p [|d rest]]; cbn [Spec.is_e164] in H; try done.
    apply andb_prop in H
      as [[[Hp Hd]%andb_prop Hds]%andb_prop Hlen%between_spec].
    assert (∀ tail, tail = [] ∨ tail = Py.wide Re.LF →
              Re.E164_REGEX_match
                (Py.Chr p :: Py.Chr d :: (Py.wide rest ++ tail)%list) = true)
      as Hmatch.
    { intros tail Htail. cbn [Re.E164_REGEX_match]. rewrite Hp, Hd. cbn [andb].
      apply digits_dollar_spec. by exists rest, tail. }
    destruct Hs as [-> | ->].
    + simpl. rewrite <- (app_nil_r (Py.wide rest)). apply Hmatch. by left.
    + change (String p (String d rest) +:+ Re.LF)
        with (String p (String d (rest +:+ Re.LF))).
      simpl. rewrite wide_app. apply Hmatch. by right.
Qed.

End e164_pattern.

(** ** POST /webhook *)
Section webhook_properties.
Import Storage.
Context (secret : string) (hmac : string → string → string)
        (json_loads : string → option Main.json)
        (fromisoformat : Py.text → bool) (now : string).

#[local] Abbreviation webhook :=
  (Main.webhook secret hmac json_loads fromisoformat now).

(** The checks of [validate_fields], in one statement. *)
Lemma validate_fields_inr (msg : Main.WebhookMessage) :
  Main.validate_fields fromisoformat msg = inr ()
  ↔ Re.E164_REGEX_match (Main.from_ msg) = true
    ∧ Re.E164_REGEX_match (Main.to msg) = true
    ∧ Py.endswith (Py.wide "Z") (Main.ts msg) = true
    ∧ fromisoformat (Py.replace_char "Z" (Py.wide "+00:00") (Main.ts msg))
      = true.
Proof.
  unfold Main.validate_fields.
  destruct (Re.E164_REGEX_match (Main.from_ msg)); cbn [negb];
    [|split; [done|by intros (? & _)]].
  destruct (Re.E164_REGEX_match (Main.to msg)); cbn [negb];
    [|split; [done|by intros (_ & ? & _)]].
  destruct (Py.endswith (Py.wide "Z") (Main.ts msg)); cbn [negb];
    [|split; [done|by intros (_ & _ & ? & _)]].
  destruct (fromisoformat _); cbn [negb]; [done|].
  split; [done|by intros (_ & _ & _ & ?)].
Qed.

(** A request that carries the signature of its body gets past the first
    two checks. *)
Lemma webhook_signed (sig body : string) (conn : Table) :
  secret ≠ EmptyString → sig ≠ EmptyString → hmac secret body = sig →
  webhook (Some sig) body conn
  = match json_loads body with
    | None =>
        {| Main.response := Main.HTTPException 422 (Some "invalid json");
           Main.result := "validation_error"; Main.dup := false;
           Main.store := conn |}
    | Some (Main.JObject payload) =>
        match Main.WebhookMessage_init payload with
        | None =>
            {| Main.response := Main.HTTPException 422 None;
               Main.result := "validation_error"; Main.dup := false;
               Main.store := conn |}
        | Some msg =>
            match Main.validate_fields fromisoformat msg with
            | inl e =>
                {| Main.response := Main.HTTPException 422 (Some e);
                   Main.result := "validation_error"; Main.dup := false;
                   Main.store := conn |}
            | inr _ =>
                match insert_message now (Main.message_id msg)
                        (Main.from_ msg) (Main.to msg) (Main.ts msg)
                        (Main.text msg) conn with
                | Some ins =>
                    {| Main.response := Main.Return Main.ack;
                       Main.result :=
                         if ins.1.2 then "duplicate" else "created";
                       Main.dup := ins.1.2; Main.store := ins.2 |}
                | None =>
                    {| Main.response := Main.Uncaught "UnicodeEncodeError";
                       Main.result := "unknown"; Main.dup := false;
                       Main.store := conn |}
                end
            end
        end
    | Some _ =>
        {| Main.response := Main.Uncaught "AttributeError";
           Main.result := "unknown"; Main.dup := false; Main.store := conn |}
    end.
Proof.
  intros Hsecret Hsig Hmac. unfold Main.webhook, Main.compute_signature.
  destruct (String.eqb_spec secret EmptyString); [done|].
  cbn [default from_option id]. rewrite Hmac, String.eqb_refl.
  destruct sig; [done|]. cbn [Py.truthy negb orb].
  destruct (json_loads body) as [[]|]; try done.
  destruct (Main.WebhookMessage_init _); [|done].
  destruct (Main.validate_fields _ _); [done|].
  by destruct (insert_message _ _ _ _ _ _ _) as [[[? ?] ?]|].
Qed.



(** X23: whatever is refused is not stored: the table changes only under
    the acknowledgment. *)
Lemma webhook_refusal_stores_nothing (x_signature : option string)
    (body : string) (conn : Table) :
  Main.response (webhook x_signature body conn) ≠ Main.Return Main.ack →
  Main.store (webhook x_signature body conn) = conn.
Proof.
  unfold Main.webhook.
  destruct (String.eqb secret EmptyString); [done|].
  destruct (_ || _); [done|].
  destruct (json_loads body) as [[]|]; try done.
  destruct (Main.WebhookMessage_init _); [|done].
  destruct (Main.validate_fields _ _); [done|].
  by destruct (insert_message _ _ _ _ _ _ _) as [[[? ?] ?]|].
Qed.

(** X24: a signed delivery whose payload the model or [validate_fields]
    rejects is answered with 422, and nothing is stored. *)
Lemma webhook_rejected_payload (sig body : string)
    (payload : list (string * Main.json)) (conn : Table) :
  secret ≠ EmptyString → sig ≠ EmptyString → hmac secret body = sig →
  json_loads body = Some (Main.JObject payload) →
  (∀ msg, Main.WebhookMessage_init payload = Some msg →
          Main.validate_fields fromisoformat msg ≠ inr ()) →
  Main.status_of (Main.response (webhook (Some sig) body conn)) = 422%Z
  ∧ Main.store (webhook (Some sig) body conn) = conn.
Proof.
  intros Hsecret Hsig Hmac Hjson Hbad. rewrite webhook_signed by done.
  rewrite Hjson. destruct (Main.WebhookMessage_init payload) as [msg|]; [|done].
  specialize (Hbad msg eq_refl).
  by destruct (Main.validate_fields fromisoformat msg) as [e|[]].
Qed.

(** C5: a from (or to) that is an E.164 number followed by a line feed
    passes the pattern, so the delivery is acknowledged and stored. *)
Theorem webhook_accepts_msisdn_newline (sig body : string) (conn : Table) :
  secret ≠ EmptyString → sig ≠ EmptyString → hmac secret body = sig →
  json_loads body = Some (Main.JObject Examples.newline_payload) →
  fromisoformat (Py.wide "2025-01-15T10:00:00+00:00") = true →
  conn !! "m1" = None →
  Main.response (webhook (Some sig) body conn) = Main.Return Main.ack
  ∧ Main.store (webhook (Some sig) body conn)
    = <["m1" := {| from_msisdn := Examples.msisdn_newline;
                   to_msisdn := "+14155550100";
                   ts := "2025-01-15T10:00:00Z";
                   text := Some "Hello world";
                   created_at := now |}]> conn
  ∧ Spec.is_e164 Examples.msisdn_newline = false.
Proof.
  intros Hsecret Hsig Hmac Hjson Hiso Hfree.
  rewrite webhook_signed by done. rewrite Hjson.
  change (Main.WebhookMessage_init Examples.newline_payload)
    with (Some {| Main.message_id := Py.wide "m1";
                  Main.from_ := Py.wide Examples.msisdn_newline;
                  Main.to := Py.wide "+14155550100";
                  Main.ts := Py.wide "2025-01-15T10:00:00Z";
                  Main.text := Py.wide <$> Some "Hello world" |}).
  cbv beta iota.
  assert (Main.validate_fields fromisoformat
            {| Main.message_id := Py.wide "m1";
               Main.from_ := Py.wide Examples.msisdn_newline;
               Main.to := Py.wide "+14155550100";
               Main.ts := Py.wide "2025-01-15T10:00:00Z";
               Main.text := Py.wide <$> Some "Hello world" |} = inr ()) as ->.
  { apply validate_fields_inr. repeat split; try reflexivity. exact Hiso. }
  cbn [Main.message_id Main.from_ Main.to Main.ts Main.text].
  rewrite insert_message_bound, Hfree. done.
Qed.

End webhook_properties.

(** ** The webhook statements on the sample deliveries *)




Lemma webhook_accepts_msisdn_newline_witness :
  Main.response
    (Main.webhook "testsecret" Examples.digest_stub
       (Examples.decoder_stub Examples.newline_payload) Examples.parser_stub
       "2025-01-15T10:06:00Z" (Some "5f2ctestsecret") "body" ∅)
  = Main.Return Main.ack.
Proof.
  refine (proj1 (webhook_accepts_msisdn_newline "testsecret"
                   Examples.digest_stub
                   (Examples.decoder_stub Examples.newline_payload)
                   Examples.parser_stub "2025-01-15T10:06:00Z"
                   "5f2ctestsecret" "body" ∅ _ _ eq_refl eq_refl eq_refl
                   eq_refl));
    discriminate.
Defined.

(** * Further properties of the storage layer *)
Section storage_round_trips.
Import Storage.

Lemma where_no_filter (r : Row) : where_sql (_build_filters None None None) r = true.
Proof. reflexivity. Qed.



Lemma limit_offset_tile {A} (a b o : Z) (l : list A) :
  (0 ≤ a)%Z → (0 ≤ b)%Z → (0 ≤ o)%Z →
  (Sqlite.limit_offset a o l ++ Sqlite.limit_offset b (o + a) l)%list
  = Sqlite.limit_offset (a + b) o l.
Proof.
  intros Ha Hb Ho. unfold Sqlite.limit_offset.
  destruct (Z.ltb_spec a 0); [lia|]. destruct (Z.ltb_spec b 0); [lia|].
  destruct (Z.ltb_spec (a + b) 0); [lia|].
  rewrite !Z2Nat.inj_add by lia. rewrite <- drop_drop.
  apply take_take_drop.
Qed.

(** X3: consecutive pages tile the result: the page of [a] rows at
    offset [o] followed by the page of [b] rows at offset [o + a] is the
    page of [a + b] rows at offset [o]. *)
Theorem get_messages_pages_tile (a b o : Z) (from since q : option string)
    (conn : Table) (page1 page2 both : Main.Envelope) :
  Main.get_messages (Some a) (Some o) from since q conn = Main.Return page1 →
  Main.get_messages (Some b) (Some (o + a)%Z) from since q conn
    = Main.Return page2 →
  Main.get_messages (Some (a + b)%Z) (Some o) from since q conn
    = Main.Return both →
  (Main.data page1 ++ Main.data page2)%list = Main.data both
  ∧ Main.total page1 = Main.total both ∧ Main.total page2 = Main.total both.
Proof.
  intros (Ha & Ho & ->)%get_messages_Return (Hb & _ & ->)%get_messages_Return
    (_ & _ & ->)%get_messages_Return.
  simpl in *. split; [|done]. unfold fetch_rows.
  apply limit_offset_tile; lia.
Qed.

Lemma get_messages_pages_tile_witness :
  (Main.data
    {| Main.data :=
         [("m1", Examples.msg "+919876543210" "2025-01-15T10:00:00Z"
                   (Some "Hello world"))];
       Main.total := 2; Main.limit := 1; Main.offset := 0 |}
  ++ Main.data
       {| Main.data :=
            [("m2", Examples.msg "+919876543210" "2025-01-15T10:00:00Z"
                      (Some "Second message"))];
          Main.total := 2; Main.limit := 1; Main.offset := 1 |})%list
  = [("m1", Examples.msg "+919876543210" "2025-01-15T10:00:00Z"
            (Some "Hello world"));
     ("m2", Examples.msg "+919876543210" "2025-01-15T10:00:00Z"
            (Some "Second message"))].
Proof.
  exact (proj1 (get_messages_pages_tile 1 1 0 None None None Examples.same_ts
                  _ _ {| Main.data := _; Main.total := 2; Main.limit := 2;
                         Main.offset := 0 |} eq_refl eq_refl eq_refl)).
Defined.

(** X4: the page holds stored rows only, each passing the WHERE clauses
    and none twice; with offset 0 and a limit not below the total, every
    stored row that passes is on the page. *)
Theorem get_messages_data_exact (limit offset : option Z)
    (from since q : option string) (conn : Table) (env : Main.Envelope) :
  Main.get_messages limit offset from since q conn = Main.Return env →
  NoDup (Main.data env)
  ∧ (∀ r, r ∈ Main.data env →
          conn !! message_id r = Some r.2
          ∧ where_sql (_build_filters (Main.from_filter from) since q) r = true)
  ∧ (Main.offset env = 0%Z → (Z.of_nat (Main.total env) ≤ Main.limit env)%Z →
     ∀ r, conn !! message_id r = Some r.2 →
          where_sql (_build_filters (Main.from_filter from) since q) r = true →
          r ∈ Main.data env).
Proof.
  intros (Hlim & Hoff & ->)%get_messages_Return. simpl.
  split; [|split].
  - eapply NoDup_fmap_1, fetch_rows_keys_NoDup.
  - intros r Hr. apply elem_of_select_where.
    rewrite <- (merge_sort_Permutation ts_id_le).
    eapply elem_of_sublist; [exact Hr|apply limit_offset_sublist].
  - intros Hoff0 Htot r Hstored Hpass.
    unfold fetch_rows, Sqlite.limit_offset. rewrite Hoff0.
    destruct (Z.ltb_spec (default 50%Z limit) 0); [lia|].
    rewrite drop_0, take_ge.
    + rewrite merge_sort_Permutation. by apply elem_of_select_where.
    + rewrite merge_sort_Permutation. unfold count_messages in Htot. lia.
Qed.

Lemma get_messages_data_exact_witness :
  NoDup [("m1", Examples.msg "+919876543210" "2025-01-15T10:00:00Z"
                  (Some "Hello world"))].
Proof.
  exact (proj1 (get_messages_data_exact None None None None (Some "hello")
                  Examples.same_ts
                  {| Main.data := _; Main.total := 1; Main.limit := 50;
                     Main.offset := 0 |} eq_refl)).
Defined.

End storage_round_trips.

(** * Further properties of get_stats *)
Section stats_consistency.
Import Storage.

#[local] Instance ts_id_ge_total : Total ts_id_ge.
Proof. intros a b. destruct (total ts_id_le a b); [by right|by left]. Qed.

#[local] Instance ts_id_ge_trans : Transitive ts_id_ge.
Proof. intros a b c Hab Hbc. exact (transitivity (R := ts_id_le) Hbc Hab). Qed.

Lemma ts_id_le_ts (a b : Row) :
  ts_id_le a b → String.leb (row_ts a) (row_ts b) = true.
Proof.
  unfold ts_id_le, ts_id_leb, String.leb.
  by destruct (String.compare (row_ts a) (row_ts b)).
Qed.

(** The first row of a sorted arrangement precedes all of its rows. *)
Lemma head_merge_sort_least {A} (R : relation A) `{!RelDecision R}
    `{!Total R} `{!Transitive R} `{!Reflexive R} (l : list A) (x : A) :
  head (merge_sort R l) = Some x → x ∈ l ∧ ∀ y, y ∈ l → R x y.
Proof.
  intros Hhead.
  pose proof (StronglySorted_merge_sort R l) as Hs.
  pose proof (merge_sort_Permutation R l) as Hp.
  apply head_Some in Hhead as [l' Hl']. rewrite Hl' in Hs, Hp.
  apply StronglySorted_inv in Hs as [_ Hall]. rewrite Forall_forall in Hall.
  split.
  - rewrite <- Hp. by left.
  - intros y Hy. rewrite <- Hp in Hy.
    apply elem_of_cons in Hy as [->|Hy]; [reflexivity|by apply Hall].
Qed.

#[local] Instance ts_id_le_refl : Reflexive ts_id_le.
Proof. intros a. by destruct (total ts_id_le a a). Qed.

#[local] Instance ts_id_ge_refl : Reflexive ts_id_ge.
Proof. intros a. apply ts_id_le_refl. Qed.

Lemma sum_indicator {K} `{EqDecision K} (x : K) (ks : list K) :
  NoDup ks → x ∈ ks →
  sum_list_with (λ k, if decide (x = k) then 1 else 0)%nat ks = 1%nat.
Proof.
  induction 1 as [|k ks Hk Hnd IH]; intros Hx; [by apply elem_of_nil in Hx|].
  simpl. destruct (decide (x = k)) as [->|Hne].
  - assert (sum_list_with (λ k', if decide (k = k') then 1 else 0)%nat ks = 0%nat)
      as ->; [|done].
    clear IH Hnd Hx. induction ks as [|k' ks IH]; [done|]. simpl.
    apply not_elem_of_cons in Hk as [Hne Hk].
    destruct (decide (k = k')); [done|]. by apply IH.
  - apply elem_of_cons in Hx as [?|Hx]; [done|]. by rewrite IH.
Qed.

Lemma sum_list_with_plus {K} (g h : K → nat) (ks : list K) :
  sum_list_with (λ k, g k + h k)%nat ks
  = (sum_list_with g ks + sum_list_with h ks)%nat.
Proof. induction ks as [|k ks IH]; simpl; [done|]. rewrite IH. lia. Qed.

(** The groups of a GROUP BY split the rows: their sizes add up to the
    number of rows. *)
Lemma group_sizes_add_up {A K} `{EqDecision K} (f : A → K) (ks : list K)
    (l : list A) :
  NoDup ks → (∀ r, r ∈ l → f r ∈ ks) →
  sum_list_with (λ k, length (filter (λ r, f r = k) l)) ks = length l.
Proof.
  intros Hnd. induction l as [|r l IH]; intros Hin.
  - clear Hin. induction ks as [|k ks IHk]; [done|].
    apply NoDup_cons in Hnd as [_ Hnd]. cbn [sum_list_with].
    rewrite filter_nil. simpl. by apply IHk.
  - trans (sum_list_with
             (λ k, (if decide (f r = k) then 1 else 0)
                   + length (filter (λ r', f r' = k) l))%nat ks).
    + clear. induction ks as [|k ks IHk]; [done|]. simpl. rewrite IHk.
      f_equal. rewrite filter_cons. by destruct (decide (f r = k)).
    + rewrite sum_list_with_plus, sum_indicator, IH; [done|..|done|].
      * intros r' Hr'. apply Hin. by right.
      * apply Hin. by left.
Qed.

Lemma group_by_senders (conn : Table) :
  (group_by_from_msisdn conn).*1 = remove_dups (row_from <$> rows_of conn).
Proof.
  unfold group_by_from_msisdn. rewrite <- list_fmap_compose.
  apply list_fmap_id.
Qed.

Lemma elem_of_group_by (conn : Table) (s : string) (n : nat) :
  (s, n) ∈ group_by_from_msisdn conn
  ↔ n = length (filter (λ r, row_from r = s) (rows_of conn))
    ∧ ∃ r, r ∈ rows_of conn ∧ row_from r = s.
Proof.
  unfold group_by_from_msisdn. rewrite list_elem_of_fmap. split.
  - intros (s' & [= -> ->] & Hs). split; [done|].
    apply elem_of_remove_dups, list_elem_of_fmap in Hs as (r & -> & Hr).
    by exists r.
  - intros (-> & r & Hr & <-). eexists. split; [done|].
    apply elem_of_remove_dups, list_elem_of_fmap. by exists r.
Qed.

(** X5: on the empty table [get_stats] has one result: both counts are
    zero, the sender list is empty, and the two timestamps are absent. *)
Theorem get_stats_empty (st : Stats) :
  get_stats ∅ st
  ↔ st = {| total_messages := 0; senders_count := 0;
            messages_per_sender := []; first_message_ts := None;
            last_message_ts := None |}.
Proof.
  unfold get_stats, top_senders, order_by, group_by_from_msisdn, rows_of.
  rewrite map_to_list_empty. split.
  - destruct st as [tm sc mps f l]. simpl.
    intros (-> & -> & (sorted & [Hp _] & ->) & -> & ->).
    apply Permutation_nil_r in Hp as ->. done.
  - intros ->. simpl. repeat split; try done.
    exists []. by repeat split.
Qed.

(** X6: the figures of one [get_stats] result agree with the table and
    with each other: the total is the number of rows; there are no more
    distinct senders than rows, and none exactly on the empty table; the
    list names min(10, senders) different senders, each with the number
    of its rows, which is at least one; with at most ten senders the
    listed counts add up to the total. *)
Theorem get_stats_figures (conn : Table) (st : Stats) :
  get_stats conn st →
  total_messages st = size conn
  ∧ (senders_count st ≤ total_messages st)%nat
  ∧ (senders_count st = 0%nat ↔ conn = ∅)
  ∧ length (messages_per_sender st) = (10 `min` senders_count st)%nat
  ∧ NoDup (messages_per_sender st).*1
  ∧ (∀ s n, (s, n) ∈ messages_per_sender st →
            (1 ≤ n)%nat
            ∧ n = length (filter (λ r, row_from r = s) (rows_of conn)))
  ∧ ((senders_count st ≤ 10)%nat →
     sum_list_with snd (messages_per_sender st) = total_messages st).
Proof.
  intros (Htot & Hsc & (sorted & [Hperm Hsorted] & Hmps) & _ & _).
  change (Sqlite.limit_offset 10 0 sorted) with (take 10 sorted) in Hmps.
  assert (length sorted = senders_count st) as Hlen.
  { rewrite Hperm, Hsc. unfold group_by_from_msisdn. apply length_fmap. }
  rewrite Htot, Hmps. unfold rows_of. rewrite length_map_to_list.
  split; [done|]. split; [|split; [|split; [|split; [|split]]]].
  - rewrite Hsc, <- (length_map_to_list conn), <- (length_fmap row_from).
    apply submseteq_length, NoDup_submseteq; [apply NoDup_remove_dups|].
    intros x. by rewrite elem_of_remove_dups.
  - rewrite Hsc, <- map_to_list_empty_iff. unfold rows_of. split.
    + intros Hnil%nil_length_inv.
      destruct (map_to_list conn) as [|r l]; [done|].
      assert (row_from r ∈ remove_dups (row_from <$> r :: l)) as Hr.
      { apply elem_of_remove_dups. by left. }
      rewrite Hnil in Hr. by apply elem_of_nil in Hr.
    + by intros ->.
  - rewrite length_take. lia.
  - eapply sublist_NoDup; [|apply fmap_sublist, sublist_take].
    rewrite Hperm, group_by_senders. apply NoDup_remove_dups.
  - intros s n Hin.
    assert ((s, n) ∈ group_by_from_msisdn conn) as Hg.
    { rewrite <- Hperm. eapply elem_of_sublist; [exact Hin|apply sublist_take]. }
    apply elem_of_group_by in Hg as (-> & r & Hr & Hfrom). split; [|done].
    assert (r ∈ filter (λ r, row_from r = s) (rows_of conn)) as Hf.
    { by apply list_elem_of_filter. }
    destruct (filter _ _); [by apply elem_of_nil in Hf|simpl; lia].
  - intros Hle. rewrite take_ge by lia. rewrite Hperm.
    unfold group_by_from_msisdn.
    rewrite <- (length_map_to_list conn).
    rewrite <- (group_sizes_add_up row_from
                  (remove_dups (row_from <$> map_to_list conn))
                  (map_to_list conn)).
    + unfold rows_of.
      generalize (remove_dups (row_from <$> map_to_list conn)).
      intros ks. induction ks as [|k ks IH]; [done|].
      rewrite fmap_cons. cbn [sum_list_with snd]. by rewrite IH.
    + apply NoDup_remove_dups.
    + intros r Hr. apply elem_of_remove_dups. by apply list_elem_of_fmap_2.
Qed.

Lemma get_stats_figures_witness :
  total_messages
    {| total_messages := 2; senders_count := 2;
       messages_per_sender :=
         [("+922222222222", 1%nat); ("+911111111111", 1%nat)];
       first_message_ts := Some "2025-01-15T10:00:00Z";
       last_message_ts := Some "2025-01-15T10:01:00Z" |}
  = size Examples.two_senders.
Proof.
  refine (proj1 (get_stats_figures Examples.two_senders _ _)).
  repeat split; try reflexivity.
  exact (proj2 top_senders_two_results).
Defined.

Lemma head_page_1 {A} (l : list A) : head (Sqlite.limit_offset 1 0 l) = head l.
Proof. by destruct l. Qed.

Lemma head_merge_sort_None {A} (R : relation A) `{!RelDecision R} (l : list A) :
  head (merge_sort R l) = None ↔ l = [].
Proof.
  rewrite head_None. split.
  - intros H. apply Permutation_nil_r. by rewrite <- H, merge_sort_Permutation.
  - by intros ->.
Qed.

(** X7: the first and the last timestamp are absent exactly on the empty
    table; otherwise each is the ts of a stored message, no stored ts is
    below the first, and none is above the last. *)
Theorem get_stats_first_last (conn : Table) (st : Stats) :
  get_stats conn st →
  (first_message_ts st = None ↔ conn = ∅)
  ∧ (last_message_ts st = None ↔ conn = ∅)
  ∧ (∀ first, first_message_ts st = Some first →
       (∃ k c, conn !! k = Some c ∧ ts c = first)
       ∧ ∀ k c, conn !! k = Some c → String.leb first (ts c) = true)
  ∧ (∀ last, last_message_ts st = Some last →
       (∃ k c, conn !! k = Some c ∧ ts c = last)
       ∧ ∀ k c, conn !! k = Some c → String.leb (ts c) last = true).
Proof.
  intros (_ & _ & _ & Hfirst & Hlast).
  rewrite head_page_1 in Hfirst, Hlast. rewrite Hfirst, Hlast.
  rewrite !fmap_None, !head_merge_sort_None. unfold rows_of.
  rewrite map_to_list_empty_iff. split; [done|]. split; [done|]. split.
  - intros first ([k c] & Hhead & ->)%fmap_Some.
    apply head_merge_sort_least in Hhead as [Hin Hleast]; [|apply _..].
    split.
    + exists k, c. by apply elem_of_map_to_list in Hin.
    + intros k' c' Hrow.
      apply (ts_id_le_ts (k, c) (k', c')), Hleast.
      by apply elem_of_map_to_list.
  - intros last ([k c] & Hhead & ->)%fmap_Some.
    apply head_merge_sort_least in Hhead as [Hin Hleast]; [|apply _..].
    split.
    + exists k, c. by apply elem_of_map_to_list in Hin.
    + intros k' c' Hrow.
      apply (ts_id_le_ts (k', c') (k, c)), Hleast.
      by apply elem_of_map_to_list.
Qed.

Lemma get_stats_first_last_witness :
  ∃ k c, Examples.two_senders !! k = Some c ∧ ts c = "2025-01-15T10:00:00Z".
Proof.
  refine (proj1 (proj1 (proj2 (proj2
    (get_stats_first_last Examples.two_senders
       {| total_messages := 2; senders_count := 2;
          messages_per_sender :=
            [("+922222222222", 1%nat); ("+911111111111", 1%nat)];
          first_message_ts := Some "2025-01-15T10:00:00Z";
          last_message_ts := Some "2025-01-15T10:01:00Z" |} _)))
    "2025-01-15T10:00:00Z" eq_refl)).
  repeat split; try reflexivity.
  exact (proj2 top_senders_two_results).
Defined.

(** X8: the listed senders are the top ones: a sender of the table that
    is not listed has no more messages than any listed sender. *)
Theorem get_stats_listed_are_top (conn : Table) (st : Stats)
    (listed other : string * nat) :
  get_stats conn st →
  listed ∈ messages_per_sender st →
  other ∈ group_by_from_msisdn conn →
  other ∉ messages_per_sender st →
  (other.2 ≤ listed.2)%nat.
Proof.
  intros (_ & _ & (sorted & [Hperm Hsorted] & ->) & _ & _) Hlisted Hother Hnot.
  change (Sqlite.limit_offset 10 0 sorted) with (take 10 sorted) in *.
  assert (Transitive cnt_desc) as Htrans.
  { intros x y z. unfold cnt_desc. lia. }
  apply Sorted_StronglySorted in Hsorted; [|done].
  rewrite <- (take_drop 10 sorted) in Hsorted, Hperm.
  apply StronglySorted_app in Hsorted as (Hcross & _ & _).
  rewrite <- Hperm in Hother. apply elem_of_app in Hother as [?|Hother]; [done|].
  exact (Hcross listed other Hlisted Hother).
Qed.

Lemma get_stats_listed_are_top_witness :
  (("+911111111111", 1%nat).2 ≤ ("+911111111101", 1%nat).2)%nat.
Proof.
  refine (get_stats_listed_are_top Examples.eleven_senders
            {| total_messages := 11; senders_count := 11;
               messages_per_sender := Examples.ten_listed;
               first_message_ts := Some "2025-01-15T10:00:00Z";
               last_message_ts := Some "2025-01-15T10:00:00Z" |}
            ("+911111111101", 1%nat) ("+911111111111", 1%nat) _ _ _ _).
  - repeat split; try reflexivity.
    exists (Examples.ten_listed ++ [("+911111111111", 1%nat)])%list.
    split; [|reflexivity]. split.
    + apply (bool_decide_unpack _). by vm_compute.
    + repeat constructor.
  - apply (bool_decide_unpack _). by vm_compute.
  - apply (bool_decide_unpack _). by vm_compute.
  - apply (bool_decide_unpack _). by vm_compute.
Defined.

End stats_consistency.

(** * Further properties of POST /webhook *)
Section webhook_invariants.
Import Storage.
Context (secret : string) (hmac : string → string → string)
        (json_loads : string → option Main.json)
        (fromisoformat : Py.text → bool) (now : string).

#[local] Abbreviation webhook :=
  (Main.webhook secret hmac json_loads fromisoformat now).

Lemma insert_message_grows (mid f t s : Py.text) (txt : option Py.text)
    (conn conn' : Table) (r : bool * bool) :
  insert_message now mid f t s txt conn = Some (r, conn') →
  conn ⊆ conn' ∧ (size conn' ≤ S (size conn))%nat.
Proof.
  intros H.
  pose proof (insert_message_Some _ _ _ _ _ _ _ _ H)
    as (mid' & f' & t' & s' & txt' & -> & -> & -> & -> & ->).
  rewrite insert_message_bound in H.
  destruct (conn !! mid') eqn:E; simplify_eq.
  - split; [done|lia].
  - split; [by apply insert_subseteq|]. rewrite map_size_insert_None by done. lia.
Qed.

Lemma constrained_str_Some (lo : nat) (hi : option nat) (s r : Py.text) :
  Main.constrained_str lo hi s = Some r →
  r = s ∧ ∃ s', s = Py.wide s' ∧ (lo ≤ String.length s')%nat
                ∧ ∀ m, hi = Some m → (String.length s' ≤ m)%nat.
Proof.
  unfold Main.constrained_str.
  destruct (Py.encode s) as [s'|] eqn:Hs; [|done]. cbn [mbind option_bind].
  destruct (_ && _) eqn:Hlen; [|done]. intros [= <-]. split; [done|].
  apply andb_prop in Hlen as [Hlo%Nat.leb_le Hhi].
  exists s'. split; [by apply encode_Some|]. split; [done|].
  intros m ->. by apply Nat.leb_le.
Qed.

(** What the model accepts carries a message_id that is not empty and a
    text, if any, of at most 4096 characters, neither with a surrogate. *)
Lemma WebhookMessage_init_Some (payload : list (string * Main.json))
    (msg : Main.WebhookMessage) :
  Main.WebhookMessage_init payload = Some msg →
  (∃ mid, Main.message_id msg = Py.wide mid ∧ mid ≠ EmptyString)
  ∧ ∀ x, Main.text msg = Some x →
         ∃ x', x = Py.wide x' ∧ (String.length x' ≤ 4096)%nat.
Proof.
  unfold Main.WebhookMessage_init. intros H.
  destruct (Main.required_str "message_id" payload) as [mid0|]; [|done].
  cbn [mbind option_bind] in H.
  destruct (Main.constrained_str 1 None mid0) as [mid|] eqn:Hmid; [|done].
  apply constrained_str_Some in Hmid as (-> & mid' & -> & Hlen & _).
  cbn [mbind option_bind] in H.
  destruct (Main.required_str "from" payload) as [f|]; [|done].
  destruct (Main.required_str "to" payload) as [t|]; [|done].
  destruct (Main.required_str "ts" payload) as [s|]; [|done].
  cbn [mbind option_bind] in H.
  assert (∃ mid, Py.wide mid' = Py.wide mid ∧ mid ≠ EmptyString) as Hid.
  { exists mid'. split; [done|]. intros ->. simpl in Hlen. lia. }
  destruct (Main.dict_get "text" payload) as [[| | |x| |]|];
    cbn [mbind option_bind] in H; try done.
  - simplify_eq. split; [done|]. by intros y.
  - destruct (Main.constrained_str 0 (Some 4096%nat) x) as [x1|] eqn:Hx;
      [|done].
    apply constrained_str_Some in Hx as (-> & x' & -> & _ & Hmax).
    simpl in H. simplify_eq. split; [done|].
    intros y [= <-]. exists x'. split; [done|]. by apply Hmax.
  - simplify_eq. split; [done|]. by intros y.
Qed.

(** X9: a delivery never removes or rewrites a stored message, whatever
    the request, and the table grows by at most one row. *)
Theorem webhook_keeps_rows (x_signature : option string) (body : string)
    (conn : Table) :
  conn ⊆ Main.store (webhook x_signature body conn)
  ∧ (size (Main.store (webhook x_signature body conn)) ≤ S (size conn))%nat.
Proof.
  unfold Main.webhook.
  destruct (String.eqb secret EmptyString); [split; [done|simpl; lia]|].
  destruct (_ || _); [split; [done|simpl; lia]|].
  destruct (json_loads body) as [[]|]; try (split; [done|simpl; lia]).
  destruct (Main.WebhookMessage_init _) as [msg|]; [|split; [done|simpl; lia]].
  destruct (Main.validate_fields _ _); [split; [done|simpl; lia]|].
  destruct (insert_message _ _ _ _ _ _ _) as [[[? ?] conn']|] eqn:Hins;
    [|split; [done|simpl; lia]].
  exact (insert_message_grows _ _ _ _ _ _ _ _ Hins).
Qed.

(** One delivery keeps the table validated. *)
Lemma webhook_keeps_validated (x_signature : option string) (body : string)
    (conn : Table) :
  (∀ k c, conn !! k = Some c → Spec.stored_validated fromisoformat k c) →
  ∀ k c, Main.store (webhook x_signature body conn) !! k = Some c →
         Spec.stored_validated fromisoformat k c.
Proof.
  intros Hconn. unfold Main.webhook.
  destruct (String.eqb secret EmptyString); [done|].
  destruct (_ || _); [done|].
  destruct (json_loads body) as [[]|]; try done.
  destruct (Main.WebhookMessage_init _) as [msg|] eqn:Hinit; [|done].
  destruct (Main.validate_fields _ _) as [|[]] eqn:Hvalid; [done|].
  destruct (insert_message _ _ _ _ _ _ _) as [[[? ?] conn']|] eqn:Hins;
    [|done].
  pose proof (insert_message_Some _ _ _ _ _ _ _ _ Hins)
    as (mid & f & t & s & txt & Hmid & Hf & Ht & Hs & Htxt).
  rewrite Hmid, Hf, Ht, Hs, Htxt, insert_message_bound in Hins.
  cbn [Main.store].
  destruct (conn !! mid) eqn:Hrow; simplify_eq; [done|].
  intros k c [[<- <-]|[_ Hk]]%lookup_insert_Some; [|by apply Hconn].
  apply WebhookMessage_init_Some in Hinit as [(mid' & Hmid' & Hne) Htext].
  apply validate_fields_inr in Hvalid as (Hvf & Hvt & Hz & Hiso).
  rewrite Hf in Hvf. rewrite Ht in Hvt. rewrite Hs in Hz, Hiso.
  rewrite Hmid in Hmid'. apply encode_Some in Hmid'.
  rewrite encode_wide in Hmid'. simplify_eq.
  repeat split; try done.
  simpl. intros x ->. destruct (Htext (Py.wide x)) as (x' & Hx' & Hlen).
  { by rewrite Htxt. }
  apply encode_Some in Hx'. rewrite encode_wide in Hx'. by simplify_eq.
Qed.

(** X10: every message in a table that deliveries have filled from
    empty has passed the checks of the webhook: its message_id is not
    empty, from and to match the pattern, ts ends in Z and parses, and a
    text has at most 4096 characters. *)
Theorem served_rows_validated (requests : list (option string * string))
    (k : string) (c : Columns) :
  (Main.serve_all secret hmac json_loads fromisoformat now requests
     (∅, Metrics.empty)).1 !! k = Some c →
  Spec.stored_validated fromisoformat k c.
Proof.
  assert (∀ st : Table * Metrics.Registry,
    (∀ k c, st.1 !! k = Some c → Spec.stored_validated fromisoformat k c) →
    ∀ k c, (Main.serve_all secret hmac json_loads fromisoformat now
              requests st).1 !! k = Some c →
           Spec.stored_validated fromisoformat k c) as Hall.
  { induction requests as [|[x b] rest IH]; intros st Hst; [done|].
    simpl. apply IH. simpl. by apply webhook_keeps_validated. }
  apply Hall. intros k' c'. simpl. by rewrite lookup_empty.
Qed.

(** X11: a body that decodes to a JSON value other than an object gets
    past the signature check and then fails outside the handler's try:
    the exception is not turned into a 422, the reported result stays
    unknown, and nothing is stored. *)
Theorem webhook_non_object_uncaught (sig body : string) (j : Main.json)
    (conn : Table) :
  secret ≠ EmptyString → sig ≠ EmptyString → hmac secret body = sig →
  json_loads body = Some j →
  (∀ payload, j ≠ Main.JObject payload) →
  Main.response (webhook (Some sig) body conn)
  = Main.Uncaught "AttributeError"
  ∧ Main.result (webhook (Some sig) body conn) = "unknown"
  ∧ Main.store (webhook (Some sig) body conn) = conn.
Proof.
  intros Hsecret Hsig Hmac Hjson Hj. rewrite webhook_signed by done.
  rewrite Hjson. destruct j; try done. by destruct (Hj members).
Qed.

Lemma webhook_not_503 (x_signature : option string) (body : string)
    (conn : Table) :
  secret ≠ EmptyString →
  Main.status_of (Main.response (webhook x_signature body conn)) ≠ 503%Z.
Proof.
  intros Hne. unfold Main.webhook.
  destruct (String.eqb_spec secret EmptyString); [done|].
  destruct (_ || _); [done|].
  destruct (json_loads body) as [[]|]; try done.
  destruct (Main.WebhookMessage_init _); [|done].
  destruct (Main.validate_fields _ _); [done|].
  by destruct (insert_message _ _ _ _ _ _ _) as [[[? ?] ?]|].
Qed.

(** X12: /health/ready answers 503 exactly when POST /webhook does, and
    that is when no secret is configured; otherwise it answers 200. *)
Theorem ready_iff_webhook_available (x_signature : option string)
    (body : string) (conn : Table) :
  ((Main.ready secret).1 = 503%Z
   ↔ Main.status_of (Main.response (webhook x_signature body conn)) = 503%Z)
  ∧ ((Main.ready secret).1 = 503%Z ↔ secret = EmptyString)
  ∧ ((Main.ready secret).1 = 200%Z ↔ secret ≠ EmptyString).
Proof.
  pose proof (webhook_not_503 x_signature body conn) as Hweb.
  unfold Main.ready.
  destruct (String.eqb_spec secret EmptyString) as [Heq|Hne]; simpl.
  - split; [|by repeat split]. split; [|done]. intros _.
    unfold Main.webhook. by rewrite Heq.
  - specialize (Hweb Hne). by repeat split.
Qed.

End webhook_invariants.

Lemma served_rows_validated_witness :
  Spec.stored_validated Examples.parser_stub "m1"
    {| Storage.from_msisdn := "+919876543210";
       Storage.to_msisdn := "+14155550100";
       Storage.ts := "2025-01-15T10:00:00Z";
       Storage.text := Some "Hello world";
       Storage.created_at := "2025-01-15T10:06:00Z" |}.
Proof.
  exact (served_rows_validated "testsecret" Examples.digest_stub
           (Examples.decoder_stub Examples.hello_payload) Examples.parser_stub
           "2025-01-15T10:06:00Z" [(Some "5f2ctestsecret", "body")]
           "m1" _ eq_refl).
Defined.

Lemma webhook_non_object_uncaught_witness :
  Main.response
    (Main.webhook "testsecret" Examples.digest_stub
       (λ _, Some (Main.JArray [])) Examples.parser_stub
       "2025-01-15T10:06:00Z" (Some "5f2ctestsecret") "body" ∅)
  = Main.Uncaught "AttributeError".
Proof.
  refine (proj1 (webhook_non_object_uncaught "testsecret" Examples.digest_stub
                   (λ _, Some (Main.JArray [])) Examples.parser_stub
                   "2025-01-15T10:06:00Z" "5f2ctestsecret" "body"
                   (Main.JArray []) ∅ _ _ eq_refl eq_refl _));
    discriminate.
Defined.

Lemma webhook_refusal_stores_nothing_witness :
  Main.store
    (Main.webhook "testsecret" Examples.digest_stub
       (Examples.decoder_stub Examples.hello_payload) Examples.parser_stub
       "2025-01-15T10:06:00Z" (Some "wrong_signature") "body"
       Examples.hello_world)
  = Examples.hello_world.
Proof.
  refine (webhook_refusal_stores_nothing "testsecret" Examples.digest_stub
            (Examples.decoder_stub Examples.hello_payload)
            Examples.parser_stub "2025-01-15T10:06:00Z"
            (Some "wrong_signature") "body" Examples.hello_world _).
  discriminate.
Defined.

Lemma webhook_rejected_payload_witness :
  Main.status_of
    (Main.response
       (Main.webhook "testsecret" Examples.digest_stub
          (Examples.decoder_stub
             [("message_id", Main.JString (Py.wide "bad1"))])
          Examples.parser_stub "2025-01-15T10:06:00Z"
          (Some "5f2ctestsecret") "body" ∅))
  = 422%Z.
Proof.
  refine (proj1 (webhook_rejected_payload "testsecret" Examples.digest_stub
                   (Examples.decoder_stub
                      [("message_id", Main.JString (Py.wide "bad1"))])
                   Examples.parser_stub "2025-01-15T10:06:00Z"
                   "5f2ctestsecret" "body"
                   [("message_id", Main.JString (Py.wide "bad1"))] ∅
                   _ _ eq_refl eq_refl _)); discriminate.
Defined.

(** * Further properties of the from filter *)
Section from_filter_forms.

Lemma rev_app_app (s acc1 acc2 : string) :
  String.rev_app s (acc1 +:+ acc2) = String.rev_app s acc1 +:+ acc2.
Proof.
  revert acc1. induction s as [|c s IH]; intros acc1; [done|].
  simpl. by rewrite <- IH.
Qed.

Lemma rev_cons (c : ascii) (s : string) :
  String.rev (String c s) = String.rev s +:+ String c EmptyString.
Proof. unfold String.rev. simpl. by rewrite <- rev_app_app. Qed.

Lemma rev_app_snoc (s : string) (c : ascii) (acc : string) :
  String.rev_app (s +:+ String c EmptyString) acc
  = String c (String.rev_app s acc).
Proof.
  revert acc. induction s as [|d s IH]; intros acc; [done|].
  change (String d s +:+ String c EmptyString)
    with (String d (s +:+ String c EmptyString)).
  simpl. by rewrite IH.
Qed.

Lemma lstrip_snoc (s : string) (c : ascii) :
  Py.isspace c = false →
  Py.lstrip (s +:+ String c EmptyString) = Py.lstrip s +:+ String c EmptyString.
Proof.
  intros Hc. induction s as [|d s IH].
  - change (EmptyString +:+ String c EmptyString) with (String c EmptyString).
    cbn [Py.lstrip]. by rewrite Hc.
  - change (String d s +:+ String c EmptyString)
      with (String d (s +:+ String c EmptyString)).
    cbn [Py.lstrip]. by destruct (Py.isspace d).
Qed.

(** A character that is no whitespace stays in front of what [rstrip]
    leaves of the rest. *)
Lemma rstrip_cons (c : ascii) (s : string) :
  Py.isspace c = false → Py.rstrip (String c s) = String c (Py.rstrip s).
Proof.
  intros Hc. unfold Py.rstrip. rewrite rev_cons, lstrip_snoc by done.
  unfold String.rev at 1. by rewrite rev_app_snoc.
Qed.

(** X13: the three spellings of a number select the same sender: a from
    value that starts with a digit and carries no whitespace at its ends
    is filtered as that value behind a plus sign, whether it comes bare,
    behind a blank (a decoded plus sign) or behind the plus sign. *)
Theorem from_filter_three_spellings (number : string) (d : ascii)
    (rest : string) :
  number = String d rest → Py.is_ascii_digit d = true →
  Py.strip number = number →
  Main.from_filter (Some number) = Some ("+" +:+ number)
  ∧ Main.from_filter (Some (" " +:+ number)) = Some ("+" +:+ number)
  ∧ Main.from_filter (Some ("+" +:+ number)) = Some ("+" +:+ number).
Proof.
  intros -> Hd Hstrip.
  assert (Py.isdigit d = true) as Hdigit by (unfold Py.isdigit; by rewrite Hd).
  assert (Py.isspace d = false) as Hspace.
  { unfold Py.is_ascii_digit in Hd. apply between_spec in Hd.
    unfold Py.isspace, Py.between.
    repeat (apply orb_false_iff; split);
      first [apply andb_false_iff; (left; apply Nat.leb_gt; lia)
                                   || (right; apply Nat.leb_gt; lia)
            |apply Nat.eqb_neq; lia]. }
  assert (Py.startswith "+" (String d rest) = false) as Hplus.
  { unfold Py.startswith. cbn [String.prefix].
    destruct (ascii_dec "+" d) as [<-|]; [by vm_compute in Hd|done]. }
  assert (Main.from_filter (Some (String d rest))
          = Some ("+" +:+ String d rest)) as Hbare.
  { unfold Main.from_filter. cbn [Py.truthy default from_option id].
    rewrite Hstrip, Hplus, Hdigit. done. }
  split; [done|]. split.
  - rewrite <- Hbare. unfold Main.from_filter.
    change (" " +:+ String d rest) with (String " " (String d rest)).
    cbn [Py.truthy default from_option id].
    by change (Py.strip (String " " (String d rest)))
      with (Py.strip (String d rest)).
  - unfold Main.from_filter.
    change ("+" +:+ String d rest) with (String "+" (String d rest)).
    cbn [Py.truthy default from_option id].
    assert (Py.strip (String "+" (String d rest))
            = String "+" (String d rest)) as ->; [|done].
    unfold Py.strip. change (Py.lstrip (String "+" (String d rest)))
      with (String "+" (String d rest)).
    rewrite rstrip_cons by done. f_equal.
    unfold Py.strip in Hstrip. cbn [Py.lstrip] in Hstrip.
    by rewrite Hspace in Hstrip.
Qed.

Lemma from_filter_three_spellings_witness :
  Main.from_filter (Some " 919876543210") = Some "+919876543210".
Proof.
  exact (proj1 (proj2 (from_filter_three_spellings "919876543210" "9"
                         "19876543210" eq_refl eq_refl eq_refl))).
Defined.

End from_filter_forms.

(** * Properties of _db_path_from_url *)
Section db_path.
Context (cwd_join : string → string).

Lemma prefix_app (a p : string) : String.prefix a (a +:+ p) = true.
Proof.
  induction a as [|c a IH]; [by destruct p|].
  change (String c a +:+ p) with (String c (a +:+ p)). cbn [String.prefix].
  by destruct (ascii_dec c c).
Qed.

Lemma prefix_split (a s : string) :
  String.prefix a s = true → ∃ p, s = a +:+ p.
Proof.
  revert s. induction a as [|c a IH]; intros s H; [by exists s|].
  destruct s as [|d s]; [done|]. cbn [String.prefix] in H.
  destruct (ascii_dec c d) as [<-|]; [|done].
  destruct (IH s H) as [p ->]. by exists p.
Qed.

Lemma replace_go_exhausted (old new s : string) :
  Py.replace_go old new (Some 0%nat) 0 s = s.
Proof. induction s as [|c s IH]; [done|]. simpl. by rewrite IH. Qed.

Lemma replace_go_skip (old new : string) (count : option nat) (a p : string) :
  Py.replace_go old new count (String.length a) (a +:+ p)
  = Py.replace_go old new count 0 p.
Proof.
  induction a as [|c a IH]; [done|].
  change (String c a +:+ p) with (String c (a +:+ p)). exact IH.
Qed.

(** Replacing once an [old] that the text starts with takes it off. *)
Lemma replace_first_prefix (c : ascii) (old p : string) :
  Py.replace (String c old) EmptyString (Some 1%nat) (String c old +:+ p) = p.
Proof.
  unfold Py.replace.
  change (String c old +:+ p) with (String c (old +:+ p)).
  cbn [Py.replace_go].
  change (String c (old +:+ p)) with (String c old +:+ p).
  rewrite prefix_app. cbn [String.length Nat.pred fmap option_fmap option_map].
  rewrite replace_go_skip, replace_go_exhausted. done.
Qed.

(** A text that does not hold [old] is left as it is. *)
Lemma replace_absent (old new : string) (count : option nat) (s : string) :
  Spec.is_substring old s = false → Py.replace old new count s = s.
Proof.
  unfold Py.replace. induction s as [|c s IH]; [done|].
  cbn [Spec.is_substring]. intros [Hp Hs]%orb_false_iff.
  cbn [Py.replace_go]. rewrite Hp, (IH Hs). by destruct count as [[|?]|].
Qed.

(** X14: [_db_path_from_url] raises exactly on a URL that does not start
    with sqlite:////.  When what follows the prefix starts neither with
    ./ nor with .\, the result is that remainder as an absolute path: it
    is returned as it is when it starts with a slash and behind a slash
    otherwise, so the spellings with four and with five slashes name the
    same file. *)
Theorem db_path_from_url_absolute (url p : string) :
  (Models._db_path_from_url cwd_join url = None
   ↔ Py.startswith "sqlite:////" url = false)
  ∧ (Py.startswith "./" p = false →
     Py.startswith ("." +:+ Models.BACKSLASH) p = false →
     Models._db_path_from_url cwd_join ("sqlite:////" +:+ p)
     = Some (if Py.startswith "/" p then p else "/" +:+ p)
     ∧ (Py.startswith "/" p = false →
        Models._db_path_from_url cwd_join ("sqlite:////" +:+ "/" +:+ p)
        = Models._db_path_from_url cwd_join ("sqlite:////" +:+ p))).
Proof.
  assert (∀ p', Py.startswith "./" p' = false →
                Py.startswith ("." +:+ Models.BACKSLASH) p' = false →
                Models._db_path_from_url cwd_join ("sqlite:////" +:+ p')
                = Some (if Py.startswith "/" p' then p' else "/" +:+ p'))
    as Habs.
  { intros p' H1 H2. unfold Models._db_path_from_url.
    unfold Py.startswith at 1. rewrite prefix_app. cbn [negb].
    rewrite (replace_first_prefix "s" "qlite:////" p'), H1, H2. cbn [orb].
    by destruct (Py.startswith "/" p'). }
  split.
  - unfold Models._db_path_from_url.
    destruct (Py.startswith "sqlite:////" url); cbn [negb]; [|done].
    split; [|done]. by repeat case_match.
  - intros H1 H2. split; [by apply Habs|]. intros H3.
    rewrite (Habs p H1 H2), H3.
    change ("sqlite:////" +:+ "/" +:+ p) with ("sqlite:////" +:+ String "/" p).
    rewrite Habs; [|done..].
    unfold Py.startswith. cbn [String.prefix].
    destruct (ascii_dec "/" "/"); [|done]. by destruct p.
Qed.

(** X15: for a URL of the form sqlite:////./name, where name holds no
    further ./ and no backslash, the result is name joined to the
    working directory. *)
Theorem db_path_from_url_relative (name : string) :
  Spec.is_substring "./" name = false →
  Spec.is_substring Models.BACKSLASH name = false →
  Models._db_path_from_url cwd_join ("sqlite:////./" +:+ name)
  = Some (cwd_join name).
Proof.
  intros Hdot Hback. unfold Models._db_path_from_url.
  change ("sqlite:////./" +:+ name) with ("sqlite:////" +:+ "./" +:+ name).
  unfold Py.startswith at 1. rewrite prefix_app. cbn [negb].
  rewrite (replace_first_prefix "s" "qlite:////" ("./" +:+ name)).
  unfold Py.startswith at 1. rewrite prefix_app. cbn [orb].
  rewrite (replace_absent Models.BACKSLASH "/" None ("./" +:+ name)).
  - f_equal. f_equal. unfold Py.replace.
    change ("./" +:+ name) with (String "." (String "/" name)).
    cbn [Py.replace_go].
    change (String "." (String "/" name)) with ("./" +:+ name).
    rewrite prefix_app.
    change (Py.replace_go "./" EmptyString None 0 name = name).
    by apply (replace_absent "./" EmptyString None name).
  - change ("./" +:+ name) with (String "." (String "/" name)).
    cbn [Spec.is_substring]. rewrite Hback. reflexivity.
Qed.

End db_path.

Lemma db_path_from_url_absolute_witness :
  Models._db_path_from_url (λ p, "/srv/app/" +:+ p) "sqlite:////data/app.db"
  = Some "/data/app.db".
Proof.
  exact (proj1 (proj2 (db_path_from_url_absolute (λ p, "/srv/app/" +:+ p)
                         EmptyString "data/app.db") eq_refl eq_refl)).
Defined.

Lemma db_path_from_url_relative_witness :
  Models._db_path_from_url (λ p, "/srv/app/" +:+ p) "sqlite:////./test_app.db"
  = Some "/srv/app/test_app.db".
Proof.
  exact (db_path_from_url_relative (λ p, "/srv/app/" +:+ p) "test_app.db"
           eq_refl eq_refl).
Defined.

(** * Properties of the counters of app/metrics.py *)
Section counters.
Context {K : Type} `{EqDecision K}.

Lemma counter_bump (k k' : K) (d : list (K * nat)) :
  Metrics.counter k' (Metrics.bump k d)
  = if decide (k' = k) then Some (S (default 0%nat (Metrics.counter k d)))
    else Metrics.counter k' d.
Proof.
  induction d as [|[k0 n] d IH]; simpl; [by case_decide|].
  destruct (decide (k = k0)); simpl; rewrite ?IH;
    repeat case_decide; by simplify_eq.
Qed.

Lemma bump_keys_NoDup (k : K) (d : list (K * nat)) :
  NoDup d.*1 → NoDup (Metrics.bump k d).*1.
Proof.
  assert (∀ x d', x ∈ (Metrics.bump k d').*1 → x = k ∨ x ∈ d'.*1) as Hin.
  { intros x d'. induction d' as [|[k0 n] d' IH]; simpl.
    - intros ->%list_elem_of_singleton. by left.
    - destruct (decide (k = k0)) as [->|]; simpl.
      + intros Hx. by right.
      + intros [->|Hx]%elem_of_cons; [right; by left|].
        destruct (IH Hx); [by left|right; by right]. }
  induction d as [|[k0 n] d IH]; simpl; intros Hnd.
  - apply NoDup_singleton.
  - apply NoDup_cons in Hnd as [Hk0 Hnd].
    destruct (decide (k = k0)) as [->|Hne]; simpl.
    + by apply NoDup_cons.
    + apply NoDup_cons. split; [|by apply IH].
      intros [->|Hx]%Hin; done.
Qed.

Lemma bump_sum (k : K) (d : list (K * nat)) :
  sum_list_with snd (Metrics.bump k d) = S (sum_list_with snd d).
Proof.
  induction d as [|[k0 n] d IH]; simpl; [done|].
  destruct (decide (k = k0)); simpl; [done|]. rewrite IH. lia.
Qed.

(** After one call per element of [ks], in turn, on the empty dictionary:
    every key is listed once, and its counter is the number of calls made
    with it; a key never passed has no entry. *)
Lemma bump_all_counts (ks : list K) (k : K) :
  let d := foldl (λ d k, Metrics.bump k d) [] ks in
  NoDup d.*1
  ∧ default 0%nat (Metrics.counter k d) = length (filter (λ x, x = k) ks)
  ∧ (Metrics.counter k d = None ↔ k ∉ ks).
Proof.
  cut (∀ d0 : list (K * nat),
    let d := foldl (λ d k, Metrics.bump k d) d0 ks in
    (NoDup d0.*1 → NoDup d.*1)
    ∧ default 0%nat (Metrics.counter k d)
      = (default 0%nat (Metrics.counter k d0)
         + length (filter (λ x, x = k) ks))%nat
    ∧ (Metrics.counter k d = None ↔ Metrics.counter k d0 = None ∧ k ∉ ks)).
  { intros Hgen. destruct (Hgen []) as (Hnd & Hcount & Hnone). simpl in *.
    split; [apply Hnd; constructor|]. split; [done|].
    rewrite Hnone. tauto. }
  induction ks as [|k0 ks IH]; intros d0; simpl.
  - split; [done|]. split; [lia|]. split; [|by intros [? _]].
    intros ?. split; [done|]. apply not_elem_of_nil.
  - destruct (IH (Metrics.bump k0 d0)) as (Hnd & Hcount & Hnone). simpl in *.
    split; [intros ?; by apply Hnd, bump_keys_NoDup|].
    rewrite Hcount, Hnone, !counter_bump, filter_cons.
    destruct (decide (k0 = k)) as [->|Hne].
    + rewrite decide_True by done. simpl. split; [lia|].
      split; [by intros [? _]|]. intros [_ Hk]. destruct Hk. by left.
    + rewrite decide_False by done. split; [done|].
      rewrite not_elem_of_cons. split; [intros [? ?]|intros [? [? ?]]]; done.
Qed.

Lemma bump_all_sum (ks : list K) (d0 : list (K * nat)) :
  sum_list_with snd (foldl (λ d k, Metrics.bump k d) d0 ks)
  = (sum_list_with snd d0 + length ks)%nat.
Proof.
  revert d0. induction ks as [|k ks IH]; intros d0; simpl; [lia|].
  rewrite IH, bump_sum. lia.
Qed.

End counters.

Section registry.

(** X16: [inc_http] raises by one the counter of its path and status,
    starting it at one when it was absent, and leaves alone every other
    counter, those of the same path under another status included, and
    the webhook counters. *)
Theorem inc_http_counts (path path' : string) (status status' : Z)
    (m : Metrics.Registry) :
  Metrics.counter (path', Metrics.str_int status')
    (Metrics._http_requests_total (Metrics.inc_http path status m))
  = (if decide (path' = path ∧ status' = status)
     then Some (S (default 0%nat
                     (Metrics.counter (path, Metrics.str_int status)
                        (Metrics._http_requests_total m))))
     else Metrics.counter (path', Metrics.str_int status')
            (Metrics._http_requests_total m))
  ∧ Metrics._webhook_requests_total (Metrics.inc_http path status m)
    = Metrics._webhook_requests_total m.
Proof.
  split; [|done]. unfold Metrics.inc_http. simpl. rewrite counter_bump.
  destruct (decide (path' = path ∧ status' = status)) as [[-> ->]|Hne].
  - by rewrite decide_True.
  - rewrite decide_False; [done|]. intros [= -> Hs].
    apply Hne. split; [done|]. by apply (inj pretty).
Qed.

(** X17: after any sequence of [inc_webhook] calls on the empty
    registry, every result is listed once, its counter is the number of
    calls made with it, a result never passed has no entry, the counters
    add up to the number of calls, and no http counter exists. *)
Theorem inc_webhook_counts (results : list string) (result : string) :
  let m := foldl (λ m r, Metrics.inc_webhook r m) Metrics.empty results in
  NoDup (Metrics._webhook_requests_total m).*1
  ∧ default 0%nat (Metrics.counter result (Metrics._webhook_requests_total m))
    = length (filter (λ r, r = result) results)
  ∧ (Metrics.counter result (Metrics._webhook_requests_total m) = None
     ↔ result ∉ results)
  ∧ sum_list_with snd (Metrics._webhook_requests_total m) = length results
  ∧ Metrics._http_requests_total m = [].
Proof.
  intros m.
  assert (∀ m0, foldl (λ m r, Metrics.inc_webhook r m) m0 results
          = {| Metrics._http_requests_total := Metrics._http_requests_total m0;
               Metrics._webhook_requests_total :=
                 foldl (λ d k, Metrics.bump k d)
                   (Metrics._webhook_requests_total m0) results |}) as Hm.
  { induction results as [|r rs IH]; intros m0; [by destruct m0|].
    simpl. by rewrite IH. }
  unfold m. rewrite Hm. simpl.
  pose proof (bump_all_counts results result) as (Hnd & Hcount & Hnone).
  split; [done|]. split; [done|]. split; [done|]. split; [|done].
  by rewrite bump_all_sum.
Qed.

End registry.

(** * The counters under POST /webhook *)
Section served_counters.
Import Storage.
Context (secret : string) (hmac : string → string → string)
        (json_loads : string → option Main.json)
        (fromisoformat : Py.text → bool) (now : string).

#[local] Abbreviation webhook :=
  (Main.webhook secret hmac json_loads fromisoformat now).

(** The four ways a delivery ends. *)
Lemma webhook_outcome (x_signature : option string) (body : string)
    (conn : Table) :
  let run := webhook x_signature body conn in
  (Main.result run = "created" ∧ Main.response run = Main.Return Main.ack
   ∧ size (Main.store run) = S (size conn))
  ∨ (Main.result run = "duplicate" ∧ Main.response run = Main.Return Main.ack
     ∧ Main.store run = conn)
  ∨ (Main.result run = "unknown"
     ∧ (∃ e, Main.response run = Main.Uncaught e) ∧ Main.store run = conn)
  ∨ ((Main.result run = "secret_missing"
      ∨ Main.result run = "invalid_signature"
      ∨ Main.result run = "validation_error")
     ∧ (∃ c d, Main.response run = Main.HTTPException c d ∧ c ≠ 200%Z)
     ∧ Main.store run = conn).
Proof.
  unfold Main.webhook.
  destruct (String.eqb secret EmptyString).
  { right; right; right. simpl. split; [by left|]. by eauto. }
  destruct (_ || _).
  { right; right; right. simpl. split; [right; by left|]. by eauto. }
  destruct (json_loads body) as [[]|];
    try (right; right; left; simpl; by eauto);
    try (right; right; right; simpl; split; [right; by right|]; by eauto).
  destruct (Main.WebhookMessage_init _) as [msg|].
  2: { right; right; right. simpl. split; [right; by right|]. by eauto. }
  destruct (Main.validate_fields _ _).
  { right; right; right. simpl. split; [right; by right|]. by eauto. }
  destruct (insert_message _ _ _ _ _ _ _) as [[[created duplicate] conn']|]
    eqn:Hins; [|right; right; left; simpl; by eauto].
  pose proof (insert_message_Some _ _ _ _ _ _ _ _ Hins)
    as (mid & f & t & s & txt & Hmid & Hf & Ht & Hs & Htxt).
  rewrite Hmid, Hf, Ht, Hs, Htxt, insert_message_bound in Hins.
  destruct (conn !! mid) eqn:Hrow; simplify_eq; simpl.
  - right; left. done.
  - left. by rewrite map_size_insert_None.
Qed.

Lemma count_of_bump {K} `{EqDecision K} (k k' : K) (d : list (K * nat)) :
  Spec.count_of k' (Metrics.bump k d)
  = if decide (k' = k) then S (Spec.count_of k d) else Spec.count_of k' d.
Proof. unfold Spec.count_of. rewrite counter_bump. by case_decide. Qed.

(** One delivery keeps the counters in agreement with the table. *)
Lemma serve_webhook_agree (x_signature : option string) (body : string)
    (st : Table * Metrics.Registry) (n : nat) :
  Spec.counters_agree st n →
  Spec.counters_agree
    (Main.serve_webhook secret hmac json_loads fromisoformat now
       x_signature body st).2 (S n).
Proof.
  destruct st as [conn [http wh]].
  unfold Spec.counters_agree, Main.serve_webhook. simpl.
  intros (Hcreated & Hsum & Hhttp & H200).
  destruct (webhook_outcome x_signature body conn)
    as [(-> & -> & Hsize)|[(-> & -> & ->)|[(-> & [e ->] & ->)
       |(Hres & (c & d & -> & Hc) & ->)]]]; simpl.
  - rewrite !count_of_bump, !bump_sum. simpl. lia.
  - rewrite !count_of_bump, !bump_sum. simpl. lia.
  - rewrite !count_of_bump, !bump_sum. simpl. lia.
  - rewrite !count_of_bump, !bump_sum.
    rewrite (decide_False (P := ("/webhook", Metrics.str_int 200)
                                = ("/webhook", Metrics.str_int c))).
    2: { intros Heq.
         assert (Metrics.str_int 200 = Metrics.str_int c) as Hs by congruence.
         unfold Metrics.str_int in Hs. apply (inj pretty) in Hs. by apply Hc. }
    destruct Hres as [-> | [-> | ->]]; simpl; lia.
Qed.

(** X18: after any sequence of deliveries served on an empty table with
    no counter set, the counters agree with the table: created counts
    the stored messages, every delivery is counted once under its
    result, every delivery but those of result unknown (an uncaught
    exception) is counted once under its status, and status 200 counts
    the created and the duplicate deliveries. *)
Theorem served_counters_agree (requests : list (option string * string)) :
  Spec.counters_agree
    (Main.serve_all secret hmac json_loads fromisoformat now requests
       (∅, Metrics.empty))
    (length requests).
Proof.
  cut (∀ st n, Spec.counters_agree st n →
               Spec.counters_agree
                 (Main.serve_all secret hmac json_loads fromisoformat now
                    requests st) (n + length requests)).
  { intros Hgen. apply (Hgen (∅, Metrics.empty) 0%nat).
    unfold Spec.counters_agree, Spec.count_of. simpl.
    by rewrite map_size_empty. }
  induction requests as [|[x b] rest IH]; intros st n Hst; simpl.
  - by rewrite Nat.add_0_r.
  - replace (n + S (length rest))%nat with (S n + length rest)%nat by lia.
    apply IH. by apply serve_webhook_agree.
Qed.

End served_counters.

(** * The storage statements on the sample tables *)

Lemma order_by_ts_id_unique_witness :
  [("m1", Examples.msg "+919876543210" "2025-01-15T10:00:00Z"
            (Some "Hello world"));
   ("m2", Examples.msg "+919876543210" "2025-01-15T10:00:00Z"
            (Some "Second message"))]
  = merge_sort Storage.ts_id_le
      (Storage.select_where None None None Examples.same_ts).
Proof.
  apply (order_by_ts_id_unique None None None Examples.same_ts). split.
  - by vm_compute.
  - repeat constructor.
Defined.

Lemma like_clause_is_substring_witness :
  Sqlite.like ("%" +:+ Py.lower "WORLD" +:+ "%") (Sqlite.LOWER "Hello World")
  = Spec.contains_nocase "WORLD" "Hello World".
Proof.
  exact (like_clause_is_substring "WORLD" "Hello World" eq_refl eq_refl eq_refl
           eq_refl eq_refl eq_refl).
Defined.
